(** * ai-testing-mcp: the tool-dispatch server of [src/index.ts]

    A shallow embedding of the class [AITestingMCPServer]: the tool
    registry served by the two transports, the call dispatcher of the
    standard-stream handler and of [runHTTP], and the tool handlers that
    the dispatcher reaches ([analyzeCodebase], [runTests] and their
    helpers).

    Conventions.
    - JavaScript values that cross the wire are terms of [jsval]; a
      number is written as an integer literal and stands for the double
      that [JSON.parse] makes of it.
    - Strings are byte strings; [toLowerCase] acts on ASCII letters.
    - What the host decides (the file system, the subprocess, the
      environment, the text of runtime-generated error messages, the
      matches of the regular expressions) is read from a [Host] record.
    - The file system below a project root is a finite tree taken at one
      instant; an entry of it may be one that [fs.stat] rejects or a
      directory that [fs.readdir] rejects.
    - Asynchronous code is sequentialised: every [await] is a bind of the
      monad [M], which carries the log of observable events (a tool
      handler entered, a subprocess started, a subprocess signalled) and
      the raised exception, if any. *)

From Stdlib Require Import String Ascii List ZArith Bool Lia.
From Stdlib Require Import DecimalString.
Import ListNotations.
Open Scope string_scope.

Set Implicit Arguments.
Set Warnings "-register-all".


(* ================================================================== *)
(** ** String primitives of the JavaScript runtime *)

Module Str.

(** [s.startsWith(p)] *)
Definition startsWith (s p : string) : bool := String.prefix p s.

(** [s.slice(n)] for [0 <= n]. *)
Definition slice (n : nat) (s : string) : string :=
  String.substring n (String.length s - n) s.

(** [s.endsWith(p)] *)
Definition endsWith (s p : string) : bool :=
  (String.length p <=? String.length s)%nat
  && String.eqb (slice (String.length s - String.length p) s) p.

(** [s.includes(p)] *)
Fixpoint includes (s p : string) : bool :=
  String.prefix p s
  || match s with
     | EmptyString => false
     | String _ s' => includes s' p
     end.

Definition lower_ascii (c : ascii) : ascii :=
  let n := nat_of_ascii c in
  if ((65 <=? n) && (n <=? 90))%nat then ascii_of_nat (n + 32) else c.

Definition upper_ascii (c : ascii) : ascii :=
  let n := nat_of_ascii c in
  if ((97 <=? n) && (n <=? 122))%nat then ascii_of_nat (n - 32) else c.

(** [s.toLowerCase()] *)
Fixpoint toLowerCase (s : string) : string :=
  match s with
  | EmptyString => EmptyString
  | String c s' => String (lower_ascii c) (toLowerCase s')
  end.

(** [parts.join(sep)] on an array of strings. *)
Fixpoint join (sep : string) (parts : list string) : string :=
  match parts with
  | [] => ""
  | [x] => x
  | x :: rest => x ++ sep ++ join sep rest
  end.

(** [s.split(c)] for a one-character separator. *)
Fixpoint split (c : ascii) (s : string) : list string :=
  match s with
  | EmptyString => [""]
  | String a s' =>
      if Ascii.eqb a c then "" :: split c s'
      else match split c s' with
           | [] => [String a ""]
           | x :: xs => String a x :: xs
           end
  end.

(** Index of the last occurrence of [c], counted from the left. *)
Fixpoint lastIndexOf (c : ascii) (s : string) : option nat :=
  match s with
  | EmptyString => None
  | String a s' =>
      match lastIndexOf c s' with
      | Some i => Some (S i)
      | None => if Ascii.eqb a c then Some 0%nat else None
      end
  end.

Definition of_Z (z : Z) : string := NilZero.string_of_int (Z.to_int z).

(** The Number that [JSON.parse] makes of the non-negative integer
    literal [w]: the nearest double, ties to the even significand.  Below
    2^53 it is [w] itself. *)
Definition toDouble (w : Z) : Z :=
  if (w <? 2 ^ 53)%Z then w
  else
    let shift := (Z.log2 w - 52)%Z in
    let q := Z.shiftr w shift in
    let r := (w - Z.shiftl q shift)%Z in
    let half := Z.shiftl 1 (shift - 1) in
    let q' :=
      if (half <? r)%Z || ((r =? half)%Z && Z.odd q) then (q + 1)%Z else q in
    Z.shiftl q' shift.

(** The first double that no longer is finite. *)
Definition infinite (v : Z) : bool := (2 ^ 1024 <=? v)%Z.

Definition ndigits (v : Z) : Z := Z.of_nat (String.length (of_Z v)).

(** The integer with the fewest significant digits that still denotes
    the double [v] (of [d] digits), the closest one if two do: the digits
    [Number::toString] prints.  [k] counts the digits tried. *)
Fixpoint shortest (fuel : nat) (k v d : Z) : Z :=
  match fuel with
  | O => v
  | S fuel' =>
      if (d <=? k)%Z then v
      else
        let scale := (10 ^ (d - k))%Z in
        let lo := (v / scale * scale)%Z in
        let hi := (lo + scale)%Z in
        let okLo := (toDouble lo =? v)%Z in
        let okHi := (toDouble hi =? v)%Z in
        if okLo && okHi then (if (v - lo <=? hi - v)%Z then lo else hi)
        else if okLo then lo
        else if okHi then hi
        else shortest fuel' (k + 1) v d
  end.

Fixpoint stripZeros (rev_digits : list ascii) : list ascii :=
  match rev_digits with
  | c :: rest => if Ascii.eqb c "0" then stripZeros rest else rev_digits
  | [] => []
  end.

(** [Number::toString] of the finite positive double [v]: plain digits
    up to 21 of them, exponent form beyond. *)
Definition ofDouble (v : Z) : string :=
  let c := if (v <? 2 ^ 53)%Z then v else shortest 17 1 v (ndigits v) in
  let n := ndigits c in
  if (n <=? 21)%Z then of_Z c
  else
    match rev (stripZeros (rev (list_ascii_of_string (of_Z c)))) with
    | [] => of_Z c
    | [d1] => String d1 ("e+" ++ of_Z (n - 1))
    | d1 :: more =>
        String d1 ("." ++ string_of_list_ascii more ++ "e+" ++ of_Z (n - 1))
    end.

(** [String(x)] for the Number [JSON.parse] makes of the integer
    literal [z]. *)
Definition ofNumber (z : Z) : string :=
  if (z =? 0)%Z then "0"
  else
    let v := toDouble (Z.abs z) in
    let sign := if (z <? 0)%Z then "-" else "" in
    if infinite v then sign ++ "Infinity" else sign ++ ofDouble v.

End Str.

(* ================================================================== *)
(** ** [node:path] (POSIX flavour) *)

Module Path.

(** [normalizeString(path, allowAboveRoot)]: the segments that survive,
    innermost last.  [acc] is the reversed list of segments kept so far. *)
Fixpoint normalizeSegments (allowAboveRoot : bool) (acc segs : list string)
  : list string :=
  match segs with
  | [] => rev acc
  | seg :: rest =>
      if String.eqb seg "" || String.eqb seg "." then
        normalizeSegments allowAboveRoot acc rest
      else if String.eqb seg ".." then
        match acc with
        | top :: acc' =>
            if String.eqb top ".." then
              normalizeSegments allowAboveRoot (".." :: acc) rest
            else normalizeSegments allowAboveRoot acc' rest
        | [] =>
            if allowAboveRoot then
              normalizeSegments allowAboveRoot [".."] rest
            else normalizeSegments allowAboveRoot [] rest
        end
      else normalizeSegments allowAboveRoot (seg :: acc) rest
  end.

(** [path.normalize(p)] *)
Definition normalize (p : string) : string :=
  if String.eqb p "" then "."
  else
    let isAbsolute := Str.startsWith p "/" in
    let trailingSep := Str.endsWith p "/" in
    let body :=
      Str.join "/" (normalizeSegments (negb isAbsolute) [] (Str.split "/" p)) in
    if String.eqb body "" then
      if isAbsolute then "/" else if trailingSep then "./" else "."
    else
      let body' := if trailingSep then body ++ "/" else body in
      if isAbsolute then "/" ++ body' else body'.

(** [path.join(a, b)] on two strings. *)
Definition join (a b : string) : string :=
  let parts := filter (fun s => negb (String.eqb s "")) [a; b] in
  match parts with
  | [] => "."
  | _ => normalize (Str.join "/" parts)
  end.

(** The last segment of [p], trailing separators ignored. *)
Definition lastSegment (p : string) : string :=
  last (filter (fun s => negb (String.eqb s "")) (Str.split "/" p)) "".

(** [path.extname(p)] *)
Definition extname (p : string) : string :=
  let base := lastSegment p in
  match Str.lastIndexOf "." base with
  | None => ""
  | Some 0%nat => ""
  | Some i => if String.eqb base ".." then "" else Str.slice i base
  end.

End Path.

(* ================================================================== *)
(** ** JavaScript values *)

(** The values [JSON.parse] produces, plus [undefined].  An object keeps
    its properties in insertion order. *)
Inductive jsval : Type :=
| JUndef
| JNull
| JBool (b : bool)
| JNum (z : Z)
| JStr (s : string)
| JArr (items : list jsval)
| JObj (props : list (string * jsval)).

Module JS.

(** Truthiness, as tested by [if (v)], [!v] and [v || w]. *)
Definition truthy (v : jsval) : bool :=
  match v with
  | JUndef | JNull => false
  | JBool b => b
  | JNum z => negb (Z.eqb z 0)
  | JStr s => negb (String.eqb s "")
  | JArr _ | JObj _ => true
  end.

(** [a || b] *)
Definition or (a b : jsval) : jsval := if truthy a then a else b.

(** [v === 'lit'] against a string literal. *)
Definition is_str (v : jsval) (lit : string) : bool :=
  match v with
  | JStr s => String.eqb s lit
  | _ => false
  end.

Fixpoint lookup (k : string) (props : list (string * jsval)) : option jsval :=
  match props with
  | [] => None
  | (k', v) :: rest => if String.eqb k k' then Some v else lookup k rest
  end.

(** [o[k] = v] on the property list of an object: an existing key keeps
    its place. *)
Fixpoint set (k : string) (v : jsval) (props : list (string * jsval))
  : list (string * jsval) :=
  match props with
  | [] => [(k, v)]
  | (k', v') :: rest =>
      if String.eqb k k' then (k, v) :: rest else (k', v') :: set k v rest
  end.

(** [{...a, ...b}] for the own enumerable string-keyed properties that
    the source goes on to read (never an index key): only objects
    contribute. *)
Definition own_props (v : jsval) : list (string * jsval) :=
  match v with
  | JObj props => props
  | _ => []
  end.

Definition spread2 (a b : jsval) : list (string * jsval) :=
  fold_left (fun acc kv => set (fst kv) (snd kv) acc)
            ((own_props a ++ own_props b)%list) [].

Definition nullish (v : jsval) : bool :=
  match v with
  | JUndef | JNull => true
  | _ => false
  end.

(** Whether [String(v)] returns.  An object is converted by the
    [toString] it finds: a parsed object with an own key of that name
    offers a value that cannot be called, and neither can its [valueOf]
    yield a primitive, so the conversion throws a TypeError; every other
    parsed object inherits [Object.prototype.toString].  An array joins
    the conversions of its elements, null and undefined left out. *)
Fixpoint converts (v : jsval) : bool :=
  match v with
  | JObj props =>
      negb (existsb (fun kv => String.eqb (fst kv) "toString") props)
  | JArr items =>
      forallb (fun x => match x with
                        | JUndef | JNull => true
                        | _ => converts x
                        end) items
  | _ => true
  end.

(** The string [String(v)] returns (and a template literal inserts)
    whenever [converts v]. *)
Fixpoint toStr (v : jsval) : string :=
  match v with
  | JUndef => "undefined"
  | JNull => "null"
  | JBool true => "true"
  | JBool false => "false"
  | JNum z => Str.ofNumber z
  | JStr s => s
  | JArr items =>
      Str.join ","
        (map (fun x => match x with
                       | JUndef | JNull => ""
                       | _ => toStr x
                       end) items)
  | JObj _ => "[object Object]"
  end.

End JS.

(* ================================================================== *)
(** ** The host: file system, subprocesses, environment *)

(** An entry of the file system as [fs.stat] classifies it. *)
Inductive node : Type :=
| File (content : string)                (* [isFile()] *)
| Dir (items : list (string * node))      (* [isDirectory()], in [readdir] order *)
| Special                                 (* neither: socket, FIFO, device *)
| Locked                                  (* [isDirectory()], but [readdir] rejects *)
| Dangling.                               (* [fs.stat] rejects: a link to nowhere *)

(** What the command line run by the shell does when nobody interferes. *)
Inductive Proc : Type :=
| SpawnFails (message : string)
    (* the shell could not be started: I/O error, bad working directory *)
| Exits (after : N) (code : Z) (stdout stderr : string)
    (* exits by itself after [after] milliseconds *)
| Dies (after : N) (stderr : string)
    (* is ended after [after] milliseconds by a signal from elsewhere *)
| Floods
    (* writes more than [maxBuffer] bytes; [exec] kills it *)
| Hangs.
    (* never exits by itself *)

(** Conditions in which the runtime, not the program, makes the message. *)
Inductive Fault : Type :=
| SyntaxErrorJSON (text : string)
| ReadOfNullish (v : jsval) (key : string)
| DestructureNullish (v : jsval) (key : string)
| PathNotString (v : jsval)
| FsError (op : string) (path : jsval)
| CommandFailed (command : string) (stderr : string)
| CommandKilled (command : string)
| MaxBufferExceeded (command : string)
| NotCallable (v : jsval) (key : string)
| NotPrimitive (v : jsval).

Record Host : Type := {
  JSON_parse : string -> option jsval;
  fs_at : string -> option node;
  spawn : string -> jsval -> Proc;
  env_MCP_API_KEY : option string;
  message_of : Fault -> string;
  (* the regular-expression scans of the source text *)
  scanJSAPIEndpoints : string -> list string;
  scanPythonAPIEndpoints : string -> list string;
  scanJSFunctions : string -> list string;
  scanPythonFunctions : string -> list string;
  (* [s.charAt(0).toUpperCase() + s.slice(1)] for an [s] that does not
     start with an ASCII character *)
  capitalizeNonAscii : string -> string
}.

(* ================================================================== *)
(** ** Effects: exceptions and the event log *)

Inductive Event : Type :=
| Call (method : string) (args : list jsval)
    (* a tool handler of the class was entered *)
| Spawn (command : string) (cwd : jsval) (timeout : positive)
    (* [exec] started a shell that runs the command line *)
| Kill (command : string) (signal : string).
    (* [exec] sent a signal to the shell it started *)

Inductive Result (A : Type) : Type :=
| Ret (a : A)
| Throw (message : string).
Arguments Ret {A} a.
Arguments Throw {A} message.

(** A computation: the events it emitted, then how it ended. *)
Definition M (A : Type) : Type := (list Event * Result A)%type.

Definition ret {A} (a : A) : M A := ([], Ret a).
Definition throw {A} (message : string) : M A := ([], Throw message).
Definition emit (e : Event) : M unit := ([e], Ret tt).

Definition bind {A B} (m : M A) (f : A -> M B) : M B :=
  match m with
  | (log, Ret a) => let (log', r) := f a in ((log ++ log')%list, r)
  | (log, Throw e) => (log, Throw e)
  end.

(** [try { m } catch (error) { h error.message }] *)
Definition try_catch {A} (m : M A) (h : string -> M A) : M A :=
  match m with
  | (log, Throw e) => let (log', r) := h e in ((log ++ log')%list, r)
  | _ => m
  end.

Notation "x <- m ;; k" := (bind m (fun x => k))
  (at level 61, m at next level, right associativity).
Notation "m ;;; k" := (bind m (fun _ => k))
  (at level 61, right associativity).

Definition events {A} (m : M A) : list Event := fst m.
Definition outcome {A} (m : M A) : Result A := snd m.

(** Running a pure, possibly throwing step inside [M]. *)
Definition lift {A} (r : Result A) : M A := ([], r).

Definition rbind {A B} (r : Result A) (f : A -> Result B) : Result B :=
  match r with
  | Ret a => f a
  | Throw e => Throw e
  end.

(* ================================================================== *)
(** ** [JSON.stringify(value, null, 2)] *)

Module Json.

Definition nl : string := String (ascii_of_nat 10) "".
Definition dquote : string := String (ascii_of_nat 34) "".
Definition backslash : string := String (ascii_of_nat 92) "".

Definition hexdigit (n : nat) : string :=
  String.substring n 1 "0123456789abcdef".

Definition escape_char (c : ascii) : string :=
  let n := nat_of_ascii c in
  if (n =? 34)%nat then backslash ++ dquote
  else if (n =? 92)%nat then backslash ++ backslash
  else if (n =? 8)%nat then backslash ++ "b"
  else if (n =? 12)%nat then backslash ++ "f"
  else if (n =? 10)%nat then backslash ++ "n"
  else if (n =? 13)%nat then backslash ++ "r"
  else if (n =? 9)%nat then backslash ++ "t"
  else if (n <? 32)%nat then
    backslash ++ "u00" ++ hexdigit (n / 16) ++ hexdigit (n mod 16)
  else String c "".

Fixpoint escape (s : string) : string :=
  match s with
  | EmptyString => ""
  | String c s' => escape_char c ++ escape s'
  end.

Definition quote (s : string) : string := dquote ++ escape s ++ dquote.

Definition keep {A} (l : list (option A)) : list A :=
  flat_map (fun o => match o with Some a => [a] | None => [] end) l.

(** The text of [v] when it starts at indentation [ind]. *)
Fixpoint pretty (ind : string) (v : jsval) {struct v} : string :=
  let ind' := ind ++ "  " in
  match v with
  | JUndef | JNull => "null"
  | JBool true => "true"
  | JBool false => "false"
  | JNum z =>
      if Str.infinite (Str.toDouble (Z.abs z)) then "null" else Str.ofNumber z
  | JStr s => quote s
  | JArr items =>
      match items with
      | [] => "[]"
      | _ =>
          "[" ++ nl
          ++ Str.join ("," ++ nl) (map (fun x => ind' ++ pretty ind' x) items)
          ++ nl ++ ind ++ "]"
      end
  | JObj props =>
      let lines :=
        keep (map (fun kv =>
                     match kv with
                     | (_, JUndef) => None
                     | (k, x) => Some (ind' ++ quote k ++ ": " ++ pretty ind' x)
                     end) props) in
      match lines with
      | [] => "{}"
      | _ => "{" ++ nl ++ Str.join ("," ++ nl) lines ++ nl ++ ind ++ "}"
      end
  end.

Definition stringify2 (v : jsval) : string := pretty "" v.

End Json.

(* ================================================================== *)
(** ** Protocol data *)

Record PropertySchema : Type := {
  ptype : string;
  pdescription : string
}.

Record InputSchema : Type := {
  stype : string;
  properties : list (string * PropertySchema);
  required : list string
}.

(** A tool descriptor, [Tool] of the SDK. *)
Record Tool : Type := {
  name : string;
  description : string;
  inputSchema : InputSchema
}.

Record ContentBlock : Type := {
  type : string;
  text : string
}.

(** What a tool handler returns: [{ content: [...] }]. *)
Record ToolCallResult : Type := {
  content : list ContentBlock
}.

Definition textResult (t : string) : ToolCallResult :=
  {| content := [ {| type := "text"; text := t |} ] |}.

(** [interface TestResult], with the fields the source fills in. *)
Record TestResult : Type := {
  success : bool;
  output : string;
  errors : string
}.

Definition TestResult_js (r : TestResult) : jsval :=
  JObj [("success", JBool (success r));
        ("output", JStr (output r));
        ("errors", JStr (errors r))].

Definition strProp (d : string) : PropertySchema :=
  {| ptype := "string"; pdescription := d |}.

Definition objectSchema (props : list (string * PropertySchema))
                        (req : list string) : InputSchema :=
  {| stype := "object"; properties := props; required := req |}.

(* ================================================================== *)
(** ** The tool registry *)

Definition tool_analyze_codebase : Tool :=
  {| name := "analyze_codebase";
     description := "Analyze project structure and identify testable components";
     inputSchema :=
       objectSchema
         [("projectPath", strProp "Path to the project directory")]
         ["projectPath"] |}.

Definition tool_generate_unit_tests : Tool :=
  {| name := "generate_unit_tests";
     description := "Generate unit tests for specific functions or components";
     inputSchema :=
       objectSchema
         [("filePath", strProp "Path to the file to test");
          ("functionName", strProp "Specific function to test (optional)");
          ("testFramework",
           strProp "Testing framework to use (jest, mocha, pytest, etc.)")]
         ["filePath"] |}.

Definition tool_generate_integration_tests : Tool :=
  {| name := "generate_integration_tests";
     description := "Generate integration tests for API endpoints";
     inputSchema :=
       objectSchema
         [("projectPath", strProp "Path to the project directory");
          ("apiSpec", strProp "API specification or documentation")]
         ["projectPath"] |}.

Definition tool_run_tests : Tool :=
  {| name := "run_tests";
     description := "Execute tests and return results";
     inputSchema :=
       objectSchema
         [("projectPath", strProp "Path to the project directory");
          ("testPattern", strProp "Test file pattern or specific test to run");
          ("framework",
           strProp "Test framework (auto-detected if not specified)")]
         ["projectPath"] |}.

Definition tool_analyze_test_results : Tool :=
  {| name := "analyze_test_results";
     description := "Analyze test results and provide insights";
     inputSchema :=
       objectSchema
         [("testOutput", strProp "Raw test output to analyze");
          ("projectPath", strProp "Path to the project directory")]
         ["testOutput"] |}.

Definition tool_suggest_fixes : Tool :=
  {| name := "suggest_fixes";
     description := "Analyze failing tests and suggest code fixes";
     inputSchema :=
       objectSchema
         [("failureOutput", strProp "Test failure output");
          ("sourceCode", strProp "Source code that failed");
          ("testCode", strProp "Test code that failed")]
         ["failureOutput"] |}.

Definition tool_setup_testing_framework : Tool :=
  {| name := "setup_testing_framework";
     description := "Initialize testing framework in a project";
     inputSchema :=
       objectSchema
         [("projectPath", strProp "Path to the project directory");
          ("framework",
           strProp "Testing framework to set up (jest, mocha, pytest, etc.)");
          ("language",
           strProp "Programming language (javascript, python, go, etc.)")]
         ["projectPath"; "framework"; "language"] |}.

(** The array literal of the [ListToolsRequestSchema] handler (lines 57-196). *)
Definition stdioTools : list Tool :=
  [ tool_analyze_codebase;
    tool_generate_unit_tests;
    tool_generate_integration_tests;
    tool_run_tests;
    tool_analyze_test_results;
    tool_suggest_fixes;
    tool_setup_testing_framework ].

(** The array literal of the [tools/list] branch of [runHTTP]
    (lines 752-811).  Its three entries are written out again there, with
    the same text as the entries of the same name above. *)
Definition httpTools : list Tool :=
  [ {| name := "analyze_codebase";
       description := "Analyze project structure and identify testable components";
       inputSchema :=
         objectSchema
           [("projectPath", strProp "Path to the project directory")]
           ["projectPath"] |};
    {| name := "generate_unit_tests";
       description := "Generate unit tests for specific functions or components";
       inputSchema :=
         objectSchema
           [("filePath", strProp "Path to the file to test");
            ("functionName", strProp "Specific function to test (optional)");
            ("testFramework",
             strProp "Testing framework to use (jest, mocha, pytest, etc.)")]
           ["filePath"] |};
    {| name := "run_tests";
       description := "Execute tests and return results";
       inputSchema :=
         objectSchema
           [("projectPath", strProp "Path to the project directory");
            ("testPattern", strProp "Test file pattern or specific test to run");
            ("framework",
             strProp "Test framework (auto-detected if not specified)")]
           ["projectPath"] |} ].

(** The handler registered for [ListToolsRequestSchema]: it ignores its
    request and reads no state. *)
Definition listToolsHandler (request : jsval) : list Tool := stdioTools.

Definition mem (s : string) (l : list string) : bool :=
  existsb (String.eqb s) l.

(* ================================================================== *)
(** ** Runtime services used by the handlers *)

Section Server.

Variable h : Host.

(** [JSON.parse(text)] *)
Definition parse (text : string) : Result jsval :=
  match JSON_parse h text with
  | Some v => Ret v
  | None => Throw (message_of h (SyntaxErrorJSON text))
  end.

(** [v.k] for the property names the source reads, none of which is
    inherited or an index. *)
Definition prop (v : jsval) (k : string) : Result jsval :=
  match v with
  | JUndef | JNull => Throw (message_of h (ReadOfNullish v k))
  | JObj props =>
      Ret (match JS.lookup k props with Some x => x | None => JUndef end)
  | _ => Ret JUndef
  end.

(** [`${v}`]: the conversion a template literal applies, which throws
    when [String(v)] does. *)
Definition template (v : jsval) : Result string :=
  if JS.converts v then Ret (JS.toStr v)
  else Throw (message_of h (NotPrimitive v)).

(** [items.join(sep)]: every element but null and undefined is
    converted, the first failure is thrown. *)
Definition joinJs (sep : string) (items : list jsval) : Result string :=
  match find (fun x => negb (JS.nullish x || JS.converts x)) items with
  | Some bad => Throw (message_of h (NotPrimitive bad))
  | None =>
      Ret (Str.join sep
             (map (fun x => if JS.nullish x then "" else JS.toStr x) items))
  end.

(** [join(dir, name)] where [dir] comes from the caller unchecked. *)
Definition path_join (dir : jsval) (item : string) : Result string :=
  match dir with
  | JStr d => Ret (Path.join d item)
  | _ => Throw (message_of h (PathNotString dir))
  end.

(** [fs.readFile(path, 'utf-8')] *)
Definition readFile (path : jsval) : Result string :=
  match path with
  | JStr p =>
      match fs_at h p with
      | Some (File text) => Ret text
      | _ => Throw (message_of h (FsError "readFile" path))
      end
  | _ => Throw (message_of h (FsError "readFile" path))
  end.

(** [fs.access(path)] *)
Definition access (path : string) : Result unit :=
  match fs_at h path with
  | Some _ => Ret tt
  | None => Throw (message_of h (FsError "access" (JStr path)))
  end.

(** [fs.readdir(path)], each name with the entry [fs.stat] will find. *)
Definition readdir (path : jsval) : Result (list (string * node)) :=
  match path with
  | JStr p =>
      match fs_at h p with
      | Some (Dir items) => Ret items
      | _ => Throw (message_of h (FsError "readdir" path))
      end
  | _ => Throw (message_of h (FsError "readdir" path))
  end.

(** [execAsync(command, { cwd, timeout })]: [child_process.exec] started
    with a positive [timeout] in milliseconds.  [exec] starts a shell
    that runs the command line.  When the timer fires first, or the
    output overflows, [exec] sends its kill signal to that shell, its own
    child, and rejects; what the shell has started in turn is not
    signalled by [exec]. *)
Definition execAsync (command : string) (cwd : jsval) (timeout : positive)
  : M (string * string) :=
  match spawn h command cwd with
  | SpawnFails message => throw message
  | Exits after code stdout stderr =>
      emit (Spawn command cwd timeout) ;;;
      if (after <=? Npos timeout)%N then
        if (code =? 0)%Z then ret (stdout, stderr)
        else throw (message_of h (CommandFailed command stderr))
      else
        emit (Kill command "SIGTERM") ;;;
        throw (message_of h (CommandKilled command))
  | Dies after stderr =>
      emit (Spawn command cwd timeout) ;;;
      if (after <=? Npos timeout)%N then
        throw (message_of h (CommandFailed command stderr))
      else
        emit (Kill command "SIGTERM") ;;;
        throw (message_of h (CommandKilled command))
  | Floods =>
      emit (Spawn command cwd timeout) ;;;
      emit (Kill command "SIGTERM") ;;;
      throw (message_of h (MaxBufferExceeded command))
  | Hangs =>
      emit (Spawn command cwd timeout) ;;;
      emit (Kill command "SIGTERM") ;;;
      throw (message_of h (CommandKilled command))
  end.

(* ================================================================== *)
(** ** Helper methods of the class *)

(** One turn of the [for (const item of items)] loop of [getAllFiles],
    for the entry [n] named [item] whose joined path is [fullPath]:
    [fs.stat] first, which may reject; then the recursive call, whose
    [fs.readdir] may reject, runs the same loop over the entries of [n]. *)
Fixpoint visit (fullPath item : string) (n : node) (files : list string)
  {struct n} : Result (list string) :=
  match n with
  | Dangling => Throw (message_of h (FsError "stat" (JStr fullPath)))
  | Dir sub =>
      if negb (Str.startsWith item ".") && negb (String.eqb item "node_modules")
      then
        (fix loop (items : list (string * node)) (files : list string)
           : Result (list string) :=
           match items with
           | [] => Ret files
           | (i, c) :: rest =>
               rbind (visit (Path.join fullPath i) i c files) (loop rest)
           end) sub files
      else Ret files
  | Locked =>
      if negb (Str.startsWith item ".") && negb (String.eqb item "node_modules")
      then Throw (message_of h (FsError "readdir" (JStr fullPath)))
      else Ret files
  | File _ => Ret (files ++ [fullPath])%list
  | Special => Ret files
  end.

(** The loop of [getAllFiles(dir, files)] over the listing of [dir]. *)
Fixpoint getAllFilesIn (dir : string) (items : list (string * node))
                       (files : list string) : Result (list string) :=
  match items with
  | [] => Ret files
  | (i, c) :: rest =>
      rbind (visit (Path.join dir i) i c files) (getAllFilesIn dir rest)
  end.

(** [getAllFiles(dir)], [files] defaulting to the empty array. *)
Definition getAllFiles (dir : jsval) : Result (list string) :=
  rbind (readdir dir) (fun items =>
    match dir with
    | JStr d => getAllFilesIn d items []
    | _ => Throw (message_of h (PathNotString dir))
    end).

Definition isTestFile (filePath : string) : bool :=
  let filename := Str.toLowerCase filePath in
  Str.includes filename "test" || Str.includes filename "spec"
  || Str.endsWith filename ".test.js" || Str.endsWith filename ".spec.js"
  || Str.endsWith filename ".test.ts" || Str.endsWith filename ".spec.ts"
  || Str.endsWith filename "_test.py" || Str.endsWith filename "_test.go".

Definition isSourceFile (filePath : string) : bool :=
  let ext := Path.extname filePath in
  mem ext [".js"; ".ts"; ".py"; ".go"; ".java"; ".cpp"; ".c"]
  && negb (isTestFile filePath).

(** [{ ...pkg.dependencies, ...pkg.devDependencies }] *)
Definition depsOf (pkg : jsval) : Result (list (string * jsval)) :=
  rbind (prop pkg "dependencies") (fun d =>
  rbind (prop pkg "devDependencies") (fun dd =>
  Ret (JS.spread2 d dd))).

(** [if (deps.k)] *)
Definition has (deps : list (string * jsval)) (k : string) : bool :=
  match JS.lookup k deps with
  | Some v => JS.truthy v
  | None => false
  end.

(** [JSON.parse(await fs.readFile(join(projectPath, 'package.json')))] *)
Definition readPackageJson (projectPath : jsval) : Result jsval :=
  rbind (path_join projectPath "package.json") (fun p =>
  rbind (readFile (JStr p)) parse).

Definition exists_in (projectPath : jsval) (file : string) : bool :=
  match rbind (path_join projectPath file) access with
  | Ret _ => true
  | Throw _ => false
  end.

Definition detectTestFramework (projectPath : jsval) : string :=
  let fromPackage :=
    match rbind (readPackageJson projectPath) depsOf with
    | Ret deps =>
        if has deps "jest" then Some "jest"
        else if has deps "mocha" then Some "mocha"
        else if has deps "vitest" then Some "vitest"
        else None
    | Throw _ => None
    end in
  match fromPackage with
  | Some f => f
  | None =>
      if exists_in projectPath "requirements.txt" then "pytest"
      else if exists_in projectPath "go.mod" then "go"
      else "jest"
  end.

(* ================================================================== *)
(** ** Tool handlers *)

(** The [analysis] object is kept as its property list. *)
Definition analysis0 : list (string * jsval) :=
  [("language", JStr "");
   ("apiEndpoints", JArr []);
   ("testableComponents", JArr []);
   ("existingTests", JArr [])].

Definition arr (k : string) (o : list (string * jsval)) : list jsval :=
  match JS.lookup k o with
  | Some (JArr items) => items
  | _ => []
  end.

(** [o.k.push(...xs)] *)
Definition push (k : string) (xs : list string) (o : list (string * jsval))
  : list (string * jsval) :=
  JS.set k (JArr (arr k o ++ map JStr xs)%list) o.

(** The block "Check for package.json (Node.js)"; an exception leaves
    the assignments made before it. *)
Definition detectNode (projectPath : jsval) (analysis : list (string * jsval))
  : list (string * jsval) :=
  match readPackageJson projectPath with
  | Throw _ => analysis
  | Ret pkg =>
      let a1 := JS.set "language" (JStr "javascript") analysis in
      match depsOf pkg with
      | Throw _ => a1
      | Ret deps =>
          let a2 :=
            if has deps "jest" then JS.set "testFramework" (JStr "jest") a1
            else if has deps "mocha" then JS.set "testFramework" (JStr "mocha") a1
            else if has deps "vitest" then JS.set "testFramework" (JStr "vitest") a1
            else a1 in
          if has deps "react" then JS.set "framework" (JStr "react") a2
          else if has deps "vue" then JS.set "framework" (JStr "vue") a2
          else if has deps "express" then JS.set "framework" (JStr "express") a2
          else if has deps "fastify" then JS.set "framework" (JStr "fastify") a2
          else a2
      end
  end.

(** The block "Check for requirements.txt or pyproject.toml (Python)". *)
Definition detectPython (projectPath : jsval) (analysis : list (string * jsval))
  : list (string * jsval) :=
  if exists_in projectPath "requirements.txt" then
    JS.set "testFramework" (JStr "pytest")
      (JS.set "language" (JStr "python") analysis)
  else analysis.

(** The body of [for (const file of files)]. *)
Definition classify (file : string) (analysis : list (string * jsval))
  : Result (list (string * jsval)) :=
  let ext := Path.extname file in
  rbind (readFile (JStr file)) (fun content =>
    let a1 :=
      if String.eqb ext ".js" || String.eqb ext ".ts" then
        push "apiEndpoints" (scanJSAPIEndpoints h content) analysis
      else if String.eqb ext ".py" then
        push "apiEndpoints" (scanPythonAPIEndpoints h content) analysis
      else analysis in
    let a2 :=
      if isSourceFile file then push "testableComponents" [file] a1 else a1 in
    let a3 :=
      if isTestFile file then push "existingTests" [file] a2 else a2 in
    Ret a3).

Fixpoint classifyAll (files : list string) (analysis : list (string * jsval))
  : Result (list (string * jsval)) :=
  match files with
  | [] => Ret analysis
  | file :: rest => rbind (classify file analysis) (classifyAll rest)
  end.

(** The [analysis] object as it stands before [JSON.stringify]. *)
Definition analyze (projectPath : jsval) : Result (list (string * jsval)) :=
  let a := detectPython projectPath (detectNode projectPath analysis0) in
  rbind (getAllFiles projectPath) (fun files => classifyAll files a).

Definition analyzeCodebase (projectPath : jsval) : M ToolCallResult :=
  emit (Call "analyzeCodebase" [projectPath]) ;;;
  try_catch
    (analysis <- lift (analyze projectPath) ;;
     ret (textResult (Json.stringify2 (JObj analysis))))
    (fun message => throw ("Failed to analyze codebase: " ++ message)).

(** [[...new Set(functions)]]: first occurrences, in order. *)
Fixpoint uniq (seen l : list string) : list string :=
  match l with
  | [] => []
  | x :: rest => if mem x seen then uniq seen rest else x :: uniq (x :: seen) rest
  end.

Definition extractJSFunctions (code : string) : list string :=
  uniq [] (scanJSFunctions h code).

Definition extractPythonFunctions (code : string) : list string :=
  scanPythonFunctions h code.

(** [functionName ? [functionName] : functions] *)
Definition targets (functionName : jsval) (functions : list string) : list jsval :=
  if JS.truthy functionName then [functionName] else map JStr functions.

Definition jestBlock (func : string) : string :=
  "describe('" ++ func ++ "', () => {" ++ Json.nl
  ++ "  test('should work correctly with valid input', () => {" ++ Json.nl
  ++ "    // TODO: Add test implementation" ++ Json.nl
  ++ "    expect(" ++ func ++ ").toBeDefined();" ++ Json.nl
  ++ "  });" ++ Json.nl ++ Json.nl
  ++ "  test('should handle edge cases', () => {" ++ Json.nl
  ++ "    // TODO: Add edge case tests" ++ Json.nl
  ++ "  });" ++ Json.nl ++ Json.nl
  ++ "  test('should handle invalid input', () => {" ++ Json.nl
  ++ "    // TODO: Add error handling tests" ++ Json.nl
  ++ "  });" ++ Json.nl
  ++ "});" ++ Json.nl ++ Json.nl.

(** Once [join] has converted every target, each [${func}] converts
    too, to the same text. *)
Definition generateJSUnitTests (sourceCode : string) (functionName framework : jsval)
  : Result string :=
  let targetFunctions := targets functionName (extractJSFunctions sourceCode) in
  if JS.is_str framework "jest" then
    rbind (joinJs ", " targetFunctions) (fun names =>
    Ret ("const { " ++ names ++ " } = require('./source-file');"
         ++ Json.nl ++ Json.nl
         ++ String.concat ""
              (map (fun f => jestBlock (JS.toStr f)) targetFunctions)))
  else Ret "".

Definition tripleQuote : string := Json.dquote ++ Json.dquote ++ Json.dquote.

(** [func.charAt(0).toUpperCase() + func.slice(1)] *)
Definition capitalize (func : jsval) : Result string :=
  match func with
  | JStr "" => Ret ""
  | JStr (String c rest) =>
      if (nat_of_ascii c <? 128)%nat then Ret (String (Str.upper_ascii c) rest)
      else Ret (capitalizeNonAscii h (String c rest))
  | _ => Throw (message_of h (NotCallable func "charAt"))
  end.

Definition pytestBlock (func : jsval) : Result string :=
  let f := JS.toStr func in
  rbind (capitalize func) (fun cap =>
  Ret ("class Test" ++ cap ++ ":" ++ Json.nl
       ++ "    def test_" ++ f ++ "_valid_input(self):" ++ Json.nl
       ++ "        " ++ tripleQuote ++ "Test " ++ f ++ " with valid input"
       ++ tripleQuote ++ Json.nl
       ++ "        # TODO: Add test implementation" ++ Json.nl
       ++ "        assert " ++ f ++ " is not None" ++ Json.nl ++ Json.nl
       ++ "    def test_" ++ f ++ "_edge_cases(self):" ++ Json.nl
       ++ "        " ++ tripleQuote ++ "Test " ++ f ++ " edge cases"
       ++ tripleQuote ++ Json.nl
       ++ "        # TODO: Add edge case tests" ++ Json.nl
       ++ "        pass" ++ Json.nl ++ Json.nl
       ++ "    def test_" ++ f ++ "_error_handling(self):" ++ Json.nl
       ++ "        " ++ tripleQuote ++ "Test " ++ f ++ " error handling"
       ++ tripleQuote ++ Json.nl
       ++ "        # TODO: Add error handling tests" ++ Json.nl
       ++ "        pass" ++ Json.nl ++ Json.nl)).

Fixpoint pytestBlocks (funcs : list jsval) : Result string :=
  match funcs with
  | [] => Ret ""
  | f :: rest =>
      rbind (pytestBlock f) (fun b =>
      rbind (pytestBlocks rest) (fun bs => Ret (b ++ bs)))
  end.

Definition generatePythonUnitTests (sourceCode : string) (functionName framework : jsval)
  : Result string :=
  let targetFunctions := targets functionName (extractPythonFunctions sourceCode) in
  rbind (joinJs ", " targetFunctions) (fun names =>
  rbind (pytestBlocks targetFunctions) (fun blocks =>
  Ret ("import pytest" ++ Json.nl ++ "from source_file import "
       ++ names ++ Json.nl ++ Json.nl ++ blocks))).

Definition generateUnitTests (filePath functionName testFramework : jsval)
  : M ToolCallResult :=
  emit (Call "generateUnitTests" [filePath; functionName; testFramework]) ;;;
  try_catch
    (sourceCode <- lift (readFile filePath) ;;
     let ext := match filePath with JStr p => Path.extname p | _ => "" end in
     generatedTests <-
       (if String.eqb ext ".js" || String.eqb ext ".ts" then
          lift (generateJSUnitTests sourceCode functionName
                  (JS.or testFramework (JStr "jest")))
        else if String.eqb ext ".py" then
          lift (generatePythonUnitTests sourceCode functionName
                  (JS.or testFramework (JStr "pytest")))
        else throw ("Unsupported file type: " ++ ext)) ;;
     ret (textResult generatedTests))
    (fun message => throw ("Failed to generate unit tests: " ++ message)).

(** [if (testPattern) args.push(testPattern)] between the fixed words. *)
Definition testArgs (before : list string) (testPattern : jsval)
                    (after : list string) : list jsval :=
  (map JStr before
   ++ (if JS.truthy testPattern then [testPattern] else [])
   ++ map JStr after)%list.

(** The [switch (framework)] of [runTests]: the command and its words. *)
Definition testCommand (framework testPattern : jsval)
  : Result (string * list jsval) :=
  if JS.is_str framework "jest" then
    Ret ("npx", testArgs ["jest"] testPattern ["--verbose"; "--coverage"])
  else if JS.is_str framework "pytest" then
    Ret ("python", testArgs ["-m"; "pytest"] testPattern ["-v"; "--cov=."])
  else if JS.is_str framework "go" then
    Ret ("go", testArgs ["test"] testPattern ["-v"; "-cover"])
  else rbind (template framework) (fun name =>
       Throw ("Unsupported test framework: " ++ name)).

Definition testTimeout : positive := 60000.

Definition testResultText (r : TestResult) : ToolCallResult :=
  textResult (Json.stringify2 (TestResult_js r)).

(** The command string [runTests] hands to [execAsync]:
    [`${command} ${args.join(' ')}`], after the framework is settled. *)
Definition commandLine (projectPath testPattern framework : jsval)
  : Result string :=
  let framework' :=
    if negb (JS.truthy framework)
    then JStr (detectTestFramework projectPath)
    else framework in
  rbind (testCommand framework' testPattern) (fun ca =>
  rbind (joinJs " " (snd ca)) (fun words =>
  Ret (fst ca ++ " " ++ words))).

Definition runTests (projectPath testPattern framework : jsval)
  : M ToolCallResult :=
  emit (Call "runTests" [projectPath; testPattern; framework]) ;;;
  try_catch
    (command <- lift (commandLine projectPath testPattern framework) ;;
     oe <- execAsync command projectPath testTimeout ;;
     ret (testResultText
            {| success := String.eqb (snd oe) "";
               output := fst oe;
               errors := snd oe |}))
    (fun message =>
       ret (testResultText
              {| success := false; output := ""; errors := message |})).

(** The four placeholder handlers. *)
Definition generateIntegrationTests (projectPath apiSpec : jsval)
  : M ToolCallResult :=
  emit (Call "generateIntegrationTests" [projectPath; apiSpec]) ;;;
  ret (textResult "Integration tests generation coming soon...").

Definition analyzeTestResults (testOutput projectPath : jsval)
  : M ToolCallResult :=
  emit (Call "analyzeTestResults" [testOutput; projectPath]) ;;;
  ret (textResult "Test results analysis coming soon...").

Definition suggestFixes (failureOutput sourceCode testCode : jsval)
  : M ToolCallResult :=
  emit (Call "suggestFixes" [failureOutput; sourceCode; testCode]) ;;;
  ret (textResult "Fix suggestions coming soon...").

Definition setupTestingFramework (projectPath framework language : jsval)
  : M ToolCallResult :=
  emit (Call "setupTestingFramework" [projectPath; framework; language]) ;;;
  ret (textResult "Testing framework setup coming soon...").

(* ================================================================== *)
(** ** The standard-stream dispatcher *)

(** [args.k] once [args] has passed [if (!args)]. *)
Definition arg (args : jsval) (k : string) : jsval :=
  match prop args k with
  | Ret v => v
  | Throw _ => JUndef
  end.

(** The handler registered for [CallToolRequestSchema], applied to
    [request.params = { name, arguments: args }].  The request has passed
    the schema, under which [name] is a string: [${name}] is that
    string. *)
Definition callToolHandler (name args : jsval) : M ToolCallResult :=
  if negb (JS.truthy args) then throw "Missing arguments"
  else
    try_catch
      (if JS.is_str name "analyze_codebase" then
         analyzeCodebase (arg args "projectPath")
       else if JS.is_str name "generate_unit_tests" then
         generateUnitTests (arg args "filePath") (arg args "functionName")
                           (arg args "testFramework")
       else if JS.is_str name "generate_integration_tests" then
         generateIntegrationTests (arg args "projectPath") (arg args "apiSpec")
       else if JS.is_str name "run_tests" then
         runTests (arg args "projectPath") (arg args "testPattern")
                  (arg args "framework")
       else if JS.is_str name "analyze_test_results" then
         analyzeTestResults (arg args "testOutput") (arg args "projectPath")
       else if JS.is_str name "suggest_fixes" then
         suggestFixes (arg args "failureOutput") (arg args "sourceCode")
                      (arg args "testCode")
       else if JS.is_str name "setup_testing_framework" then
         setupTestingFramework (arg args "projectPath") (arg args "framework")
                               (arg args "language")
       else throw ("Unknown tool: " ++ JS.toStr name))
      (fun message =>
         ret (textResult ("Error executing " ++ JS.toStr name ++ ": " ++ message))).

(** The two envelopes of the data model. *)
Inductive Envelope : Type :=
| Success (result : ToolCallResult)
| Failure (code : Z) (message : string).

(** [ErrorCode.InternalError] of the SDK, which its protocol layer gives
    to an error thrown by a request handler. *)
Definition InternalError : Z := -32603.

(** The envelope the SDK sends for the handler's outcome. *)
Definition stdioEnvelope (r : Result ToolCallResult) : Envelope :=
  match r with
  | Ret result => Success result
  | Throw message => Failure InternalError message
  end.

Definition stdioCall (name args : jsval) : list Event * Envelope :=
  let m := callToolHandler name args in
  (events m, stdioEnvelope (outcome m)).

(* ================================================================== *)
(** ** The HTTP adapter *)

(** The parts of [IncomingMessage] that [runHTTP] reads; [body] is the
    concatenation of the [data] chunks. *)
Record HttpRequest : Type := {
  method : string;
  url : option string;
  authorization : option string;
  body : string
}.

Inductive RpcResult : Type :=
| InitializeResult (protocolVersion serverName serverVersion : string)
| ToolsResult (tools : list Tool)
| CallResult (result : ToolCallResult)
| EmptyResult.

(** The value handed to [res.end], before [JSON.stringify]. *)
Inductive Payload : Type :=
| NoBody
| RpcResponse (result : RpcResult) (id : jsval)
| RpcError (code : Z) (message : string) (id : jsval)
| ServerInfo
| NotFound
| AuthReply (authenticated : bool) (message : string).

Record HttpResponse : Type := {
  status : nat;
  headers : list (string * string);
  payload : Payload
}.

Definition defaultKey : string := "default-dev-key".

(** [process.env.MCP_API_KEY || 'default-dev-key'] *)
Definition apiKey : string :=
  match env_MCP_API_KEY h with
  | Some k => if String.eqb k "" then defaultKey else k
  | None => defaultKey
  end.

(** [authHeader.startsWith('Bearer ') ? authHeader.slice(7) : authHeader] *)
Definition bearerToken (authHeader : string) : string :=
  if Str.startsWith authHeader "Bearer " then Str.slice 7 authHeader
  else authHeader.

Definition authenticateRequest (req : HttpRequest) : bool :=
  match authorization req with
  | None => false
  | Some authHeader =>
      if String.eqb authHeader "" then false
      else String.eqb (bearerToken authHeader) apiKey
  end.

Definition corsHeaders : list (string * string) :=
  [("Access-Control-Allow-Origin", "*");
   ("Access-Control-Allow-Methods", "GET, POST, OPTIONS");
   ("Access-Control-Allow-Headers", "Content-Type, Authorization, X-API-Key")].

Definition jsonHeaders : list (string * string) :=
  (corsHeaders ++ [("Content-Type", "application/json")])%list.

(** [req.url === '/mcp' || req.url === '/' || req.url?.includes('mcp')] *)
Definition isMcpUrl (u : option string) : bool :=
  match u with
  | Some s => String.eqb s "/mcp" || String.eqb s "/" || Str.includes s "mcp"
  | None => false
  end.

(** [const { name, arguments: args } = request.params] *)
Definition destructureParams (params : jsval) : Result (jsval * jsval) :=
  match params with
  | JUndef | JNull => Throw (message_of h (DestructureNullish params "name"))
  | _ =>
      rbind (prop params "name") (fun name =>
      rbind (prop params "arguments") (fun args => Ret (name, args)))
  end.

(** The [tools/call] branch. *)
Definition httpCall (name args : jsval) : M ToolCallResult :=
  if negb (JS.truthy args) then throw "Missing arguments"
  else if JS.is_str name "analyze_codebase" then
    analyzeCodebase (arg args "projectPath")
  else if JS.is_str name "generate_unit_tests" then
    generateUnitTests (arg args "filePath") (arg args "functionName")
                      (arg args "testFramework")
  else if JS.is_str name "run_tests" then
    runTests (arg args "projectPath") (arg args "testPattern")
             (arg args "framework")
  else
    text <- lift (template name) ;;
    throw ("Unknown tool: " ++ text).

(** The chain of tests on [request.method]. *)
Definition rpcResult (request : jsval) : M RpcResult :=
  m <- lift (prop request "method") ;;
  if JS.is_str m "initialize" then
    ret (InitializeResult "2024-11-05" "ai-testing-mcp" "1.0.0")
  else if JS.is_str m "tools/list" then ret (ToolsResult httpTools)
  else if JS.is_str m "tools/call" then
    params <- lift (prop request "params") ;;
    na <- lift (destructureParams params) ;;
    result <- httpCall (fst na) (snd na) ;;
    ret (CallResult result)
  else if JS.is_str m "ping" then ret EmptyResult
  else if JS.is_str m "initialized" then ret EmptyResult
  else
    text <- lift (template m) ;;
    throw ("Unsupported method: " ++ text).

(** The [try] block of the [end] listener. *)
Definition respond (body : string) : M HttpResponse :=
  request <- lift (parse body) ;;
  result <- rpcResult request ;;
  id <- lift (prop request "id") ;;
  ret {| status := 200;
         headers := jsonHeaders;
         payload := RpcResponse result (JS.or id JNull) |}.

(** The request listener given to [createServer]. *)
Definition handleHTTP (req : HttpRequest) : M HttpResponse :=
  if String.eqb (method req) "OPTIONS" then
    ret {| status := 200; headers := corsHeaders; payload := NoBody |}
  else if String.eqb (method req) "POST" && isMcpUrl (url req) then
    try_catch (respond (body req))
      (fun message =>
         ret {| status := 500;
                headers := jsonHeaders;
                payload := RpcError (-32000) message JNull |})
  else if String.eqb (method req) "GET" then
    if match url req with
       | Some u => Str.includes u "mcp" || String.eqb u "/"
       | None => false
       end
    then ret {| status := 200; headers := jsonHeaders; payload := ServerInfo |}
    else ret {| status := 404; headers := jsonHeaders; payload := NotFound |}
  else if String.eqb (method req) "POST"
          && match url req with Some u => String.eqb u "/auth" | None => false end
  then
    if authenticateRequest req then
      ret {| status := 200; headers := jsonHeaders;
             payload := AuthReply true "API key is valid" |}
    else
      ret {| status := 401; headers := jsonHeaders;
             payload := AuthReply false "Invalid or missing API key" |}
  else ret {| status := 404; headers := jsonHeaders; payload := NotFound |}.

(** The envelope an HTTP response carries, if it is a JSON-RPC reply to
    a tool call. *)
Definition httpEnvelope (r : HttpResponse) : option Envelope :=
  match payload r with
  | RpcResponse (CallResult result) _ => Some (Success result)
  | RpcError code message _ => Some (Failure code message)
  | _ => None
  end.

(** The [id] member of a JSON-RPC reply. *)
Definition responseId (r : HttpResponse) : option jsval :=
  match payload r with
  | RpcResponse _ id => Some id
  | RpcError _ _ id => Some id
  | _ => None
  end.

End Server.

(* ================================================================== *)
(** ** Vocabulary of the statements *)

(** [n] is the name of one of [tools]. *)
Definition knownTo (tools : list Tool) (n : jsval) : bool :=
  existsb (fun t => JS.is_str n (name t)) tools.

(** [req] is a POST to the MCP endpoint whose body parses to [request]. *)
Definition postsRpc (h : Host) (req : HttpRequest) (request : jsval) : Prop :=
  method req = "POST" /\ isMcpUrl (url req) = true
  /\ JSON_parse h (body req) = Some request.

(** [req] posts a [tools/call] whose [params] destructure to the tool
    name [n] and the arguments [args] ([JUndef] when the field is absent). *)
Definition isToolCall (h : Host) (req : HttpRequest) (n args : jsval) : Prop :=
  exists request params,
    postsRpc h req request
    /\ prop h request "method" = Ret (JStr "tools/call")
    /\ prop h request "params" = Ret params
    /\ destructureParams h params = Ret (n, args).

(** The subprocess does not end by itself within the timeout of [runTests]. *)
Definition timesOut (p : Proc) : bool :=
  match p with
  | Exits after _ _ _ => negb (after <=? Npos testTimeout)%N
  | Dies after _ => negb (after <=? Npos testTimeout)%N
  | Hangs => true
  | _ => false
  end.

(** The subprocess fails: it cannot start, exits non-zero, is ended by a
    signal, floods its pipes or times out. *)
Definition fails (p : Proc) : bool :=
  match p with
  | SpawnFails _ => true
  | Exits after code _ _ => negb (after <=? Npos testTimeout)%N || negb (code =? 0)%Z
  | Dies _ _ => true
  | Floods => true
  | Hangs => true
  end.

(** The message of the error with which [execAsync] rejects for a
    subprocess that fails. *)
Definition failureMessage (h : Host) (command : string) (p : Proc) : string :=
  match p with
  | SpawnFails message => message
  | Exits after _ _ stderr =>
      if (after <=? Npos testTimeout)%N
      then message_of h (CommandFailed command stderr)
      else message_of h (CommandKilled command)
  | Dies after stderr =>
      if (after <=? Npos testTimeout)%N
      then message_of h (CommandFailed command stderr)
      else message_of h (CommandKilled command)
  | Floods => message_of h (MaxBufferExceeded command)
  | Hangs => message_of h (CommandKilled command)
  end.

(** The payload of a run that failed: [success: false], no output, the
    error's message. *)
Definition failedRun (message : string) : ToolCallResult :=
  testResultText {| success := false; output := ""; errors := message |}.

(** [path] names a regular file that lies below the directory [dir] with
    listing [items], every directory on the way down being neither
    dot-named nor [node_modules]. *)
Inductive reaches : string -> list (string * node) -> string -> Prop :=
| reaches_file : forall dir items item text,
    In (item, File text) items ->
    reaches dir items (Path.join dir item)
| reaches_dir : forall dir items item sub path,
    In (item, Dir sub) items ->
    Str.startsWith item "." = false ->
    item <> "node_modules" ->
    reaches (Path.join dir item) sub path ->
    reaches dir items path.

(** The test of [getAllFiles] for descending into a directory entry. *)
Definition descends (item : string) : bool :=
  negb (Str.startsWith item ".") && negb (String.eqb item "node_modules").

(** The walk gets past the entry [n] named [item]: [fs.stat] accepts
    it, and if the walk descends into it, [fs.readdir] accepts it and the
    walk gets past everything in it. *)
Fixpoint passable (item : string) (n : node) {struct n} : bool :=
  match n with
  | Dangling => false
  | Locked => negb (descends item)
  | Dir sub =>
      if descends item
      then forallb (fun ic => match ic with (i, c) => passable i c end) sub
      else true
  | File _ | Special => true
  end.

Definition walkable (items : list (string * node)) : bool :=
  forallb (fun ic => match ic with (i, c) => passable i c end) items.



(** Induction over a file tree and its listings together. *)
Section NodeInduction.

Variable P : node -> Prop.
Variable Q : list (string * node) -> Prop.
Hypothesis P_file : forall text, P (File text).
Hypothesis P_special : P Special.
Hypothesis P_locked : P Locked.
Hypothesis P_dangling : P Dangling.
Hypothesis P_dir : forall items, Q items -> P (Dir items).
Hypothesis Q_nil : Q [].
Hypothesis Q_cons : forall item n rest, P n -> Q rest -> Q ((item, n) :: rest).

Fixpoint node_listing_ind (n : node) : P n :=
  match n with
  | File text => P_file text
  | Special => P_special
  | Locked => P_locked
  | Dangling => P_dangling
  | Dir items =>
      P_dir
        ((fix listing (l : list (string * node)) : Q l :=
            match l with
            | [] => Q_nil
            | (item, c) :: rest =>
                Q_cons item (node_listing_ind c) (listing rest)
            end) items)
  end.

End NodeInduction.

(** The configured key as the specification words it: the environment
    value, or the default when the variable is unset. *)
Definition configuredKey_spec (h : Host) : string :=
  match env_MCP_API_KEY h with
  | Some k => k
  | None => defaultKey
  end.

(** The same request under another [Authorization] header. *)
Definition withAuthorization (a : option string) (req : HttpRequest)
  : HttpRequest :=
  {| method := method req; url := url req; authorization := a;
     body := body req |}.

(* ================================================================== *)
(** ** A small host for concrete runs *)

Module Demo.

Definition tree : list (string * node) :=
  [(".env", File "SECRET=1");
   ("package.json", File "pkg");
   ("src", Dir [("app.js", File "app.get('/x')");
                ("app.test.js", File "test('x')")]);
   ("node_modules", Dir [("lib.js", File "module.exports = 1")]);
   (".git", Dir [("config", File "[core]")])].

Definition fs (p : string) : option node :=
  if String.eqb p "proj" then Some (Dir tree)
  else if String.eqb p "proj/.env" then Some (File "SECRET=1")
  else if String.eqb p "proj/package.json" then Some (File "pkg")
  else if String.eqb p "proj/src/app.js" then Some (File "app.get('/x')")
  else if String.eqb p "proj/src/app.test.js" then Some (File "test('x')")
  else if String.eqb p "slow" then Some (Dir [])
  else if String.eqb p "broken" then Some (Dir [])
  else None.

Definition pkg : jsval :=
  JObj [("devDependencies", JObj [("jest", JStr "^29.0.0")])].

Definition rpc (m : string) (params id : jsval) : jsval :=
  JObj [("jsonrpc", JStr "2.0"); ("method", JStr m);
        ("params", params); ("id", id)].

Definition call (n : string) (args id : jsval) : jsval :=
  rpc "tools/call" (JObj [("name", JStr n); ("arguments", args)]) id.

Definition projArgs (p : string) : jsval := JObj [("projectPath", JStr p)].

(** The request documents the demo parser knows. *)
Definition documents : list jsval :=
  [ rpc "tools/list" JUndef (JNum 1);
    call "bogus" (JObj []) (JNum 2);
    call "run_tests" (projArgs "proj") (JNum 3);
    call "run_tests" (projArgs "slow") (JNum 4);
    call "run_tests" (projArgs "broken") (JNum 5);
    rpc "tools/call" (JObj [("name", JStr "run_tests")]) (JNum 6);
    rpc "ping" JUndef (JNum 0) ].

Definition parseDoc (text : string) : option jsval :=
  if String.eqb text "pkg" then Some pkg
  else find (fun d => String.eqb text (Json.stringify2 d)) documents.

Definition proc (command : string) (cwd : jsval) : Proc :=
  if JS.is_str cwd "proj" then Exits 1200 0 "PASS src/app.test.js" ""
  else if JS.is_str cwd "slow" then Hangs
  else if JS.is_str cwd "broken" then Exits 300 1 "" "1 failed"
  else SpawnFails "spawn /bin/sh ENOENT".

Definition messages (f : Fault) : string :=
  match f with
  | SyntaxErrorJSON _ => "Unexpected token in JSON"
  | ReadOfNullish _ k => "Cannot read properties of nullish (reading '" ++ k ++ "')"
  | DestructureNullish _ k => "Cannot destructure property '" ++ k ++ "'"
  | PathNotString _ => "The path argument must be of type string"
  | FsError op _ => op ++ " failed"
  | CommandFailed c e => "Command failed: " ++ c ++ Json.nl ++ e
  | CommandKilled c => "Command failed: " ++ c ++ Json.nl
  | MaxBufferExceeded _ => "stdout maxBuffer length exceeded"
  | NotCallable _ k => k ++ " is not a function"
  | NotPrimitive _ => "Cannot convert object to primitive value"
  end.

Definition host (key : option string) : Host :=
  {| JSON_parse := parseDoc;
     fs_at := fs;
     spawn := proc;
     env_MCP_API_KEY := key;
     message_of := messages;
     scanJSAPIEndpoints := fun _ => [];
     scanPythonAPIEndpoints := fun _ => [];
     scanJSFunctions := fun _ => [];
     scanPythonFunctions := fun _ => [];
     capitalizeNonAscii := fun s => s |}.

Definition post (doc : jsval) : HttpRequest :=
  {| method := "POST"; url := Some "/mcp"; authorization := None;
     body := Json.stringify2 doc |}.

End Demo.


(* ================================================================== *)
(** ** Further sample projects *)

Module Sample.

(** A package that declares mocha, and one that declares jest and react. *)
Definition pkgMocha : jsval :=
  JObj [("dependencies", JObj [("mocha", JStr "^10.2.0")])].

Definition pkgJestReact : jsval :=
  JObj [("dependencies", JObj [("react", JStr "^18.0.0")]);
        ("devDependencies", JObj [("jest", JStr "^29.0.0")])].

(** [mixed] holds both a package.json and a requirements.txt; [mocha]
    holds a package.json only; [notes.txt] is a plain file. *)
Definition fs (p : string) : option node :=
  if String.eqb p "mixed" then
    Some (Dir [("package.json", File "jest-react");
               ("requirements.txt", File "flask");
               ("app.py", File "print(1)")])
  else if String.eqb p "mixed/package.json" then Some (File "jest-react")
  else if String.eqb p "mixed/requirements.txt" then Some (File "flask")
  else if String.eqb p "mixed/app.py" then Some (File "print(1)")
  else if String.eqb p "mocha" then Some (Dir [("package.json", File "mocha")])
  else if String.eqb p "mocha/package.json" then Some (File "mocha")
  else if String.eqb p "notes.txt" then Some (File "remember")
  else if String.eqb p "lib.js" then Some (File "function f() {}")
  else None.

(** A request for a method the adapter does not serve. *)
Definition resourcesList : jsval :=
  Demo.rpc "resources/list" JUndef (JStr "r-1").

Definition parseDoc (text : string) : option jsval :=
  if String.eqb text "jest-react" then Some pkgJestReact
  else if String.eqb text "mocha" then Some pkgMocha
  else if String.eqb text "42" then Some (JNum 42)
  else if String.eqb text (Json.stringify2 resourcesList) then Some resourcesList
  else None.

Definition host : Host :=
  {| JSON_parse := parseDoc;
     fs_at := fs;
     spawn := fun _ _ => Exits 900 0 "ok" "";
     env_MCP_API_KEY := None;
     message_of := Demo.messages;
     scanJSAPIEndpoints := fun _ => [];
     scanPythonAPIEndpoints := fun _ => [];
     scanJSFunctions := fun _ => ["f"; "g"; "f"];
     scanPythonFunctions := fun _ => [];
     capitalizeNonAscii := fun s => s |}.

End Sample.

(* ================================================================== *)
(** * Properties *)

(** ** The runtime primitives on samples from the Node documentation *)

Example extname_samples :
  map Path.extname
      ["index.html"; "index.coffee.md"; "index."; "index"; ".index";
       ".index.md"; "a/b.test.ts"; ".."; "..."; "..txt"; "dir.d/file"; "a.js/"]
  = [".html"; ".md"; "."; ""; ""; ".md"; ".ts"; ""; "."; ".txt"; ""; ".js"].
Proof. reflexivity. Qed.

Example join_samples :
  map (fun p => Path.join (fst p) (snd p))
      [("proj", "package.json"); (".", "src"); ("/a/b/", "c"); ("", "x");
       ("a/../b", "c"); ("/", "etc"); ("./a", ".env"); ("..", "x")]
  = ["proj/package.json"; "src"; "/a/b/c"; "x"; "b/c"; "/etc"; "a/.env"; "../x"].
Proof. reflexivity. Qed.

Example stringify_sample :
  Json.stringify2
    (TestResult_js {| success := false; output := ""; errors := "a" ++ Json.nl ++ "b" |})
  = "{" ++ Json.nl
    ++ "  " ++ Json.quote "success" ++ ": false," ++ Json.nl
    ++ "  " ++ Json.quote "output" ++ ": " ++ Json.quote "" ++ "," ++ Json.nl
    ++ "  " ++ Json.quote "errors" ++ ": " ++ Json.dquote ++ "a"
    ++ Json.backslash ++ "nb" ++ Json.dquote ++ Json.nl
    ++ "}".
Proof. reflexivity. Qed.

Example demo_walk :
  getAllFiles (Demo.host None) (JStr "proj")
  = Ret ["proj/.env"; "proj/package.json"; "proj/src/app.js";
         "proj/src/app.test.js"].
Proof. reflexivity. Qed.

(** ** Laws of the effect monad *)

Lemma bind_ret_l : forall A B (a : A) (f : A -> M B), bind (ret a) f = f a.
Proof. intros. unfold bind, ret. destruct (f a). reflexivity. Qed.

Lemma bind_lift_ret : forall A B (a : A) (f : A -> M B),
  bind (lift (Ret a)) f = f a.
Proof. intros. unfold bind, lift. destruct (f a). reflexivity. Qed.

(** ** Requests that reach the JSON-RPC branch *)

Lemma handleHTTP_post : forall h req request,
  postsRpc h req request ->
  handleHTTP h req
  = try_catch
      (result <- rpcResult h request ;;
       id <- lift (prop h request "id") ;;
       ret {| status := 200; headers := jsonHeaders;
              payload := RpcResponse result (JS.or id JNull) |})
      (fun message =>
         ret {| status := 500; headers := jsonHeaders;
                payload := RpcError (-32000) message JNull |}).
Proof.
  intros h req request (Hm & Hu & Hp).
  unfold handleHTTP. rewrite Hm, Hu. cbn [String.eqb Ascii.eqb Bool.eqb andb].
  unfold respond, parse. rewrite Hp. rewrite bind_lift_ret. reflexivity.
Qed.

Lemma rpcResult_call : forall h req n args,
  isToolCall h req n args ->
  exists request,
    postsRpc h req request
    /\ prop h request "method" = Ret (JStr "tools/call")
    /\ rpcResult h request
       = (result <- httpCall h n args ;; ret (CallResult result)).
Proof.
  intros h req n args (request & params & Hpost & Hm & Hp & Hd).
  exists request. split; [assumption|]. split; [assumption|].
  unfold rpcResult. rewrite Hm, bind_lift_ret.
  cbn [JS.is_str String.eqb Ascii.eqb Bool.eqb].
  rewrite Hp, bind_lift_ret, Hd, bind_lift_ret. reflexivity.
Qed.

(* ================================================================== *)
(** ** CORS preflight *)

(** C8: an [OPTIONS] request, whatever its path, headers and body, is
    answered with status 200, no body, and exactly the three CORS
    headers Access-Control-Allow-Origin, Access-Control-Allow-Methods and
    Access-Control-Allow-Headers with the values the listener sets;
    nothing is parsed, no event is logged, so neither the dispatcher nor
    a tool handler runs. *)
Theorem C8_options_short_circuit : forall h req,
  method req = "OPTIONS" ->
  handleHTTP h req
  = ([], Ret {| status := 200;
                headers :=
                  [("Access-Control-Allow-Origin", "*");
                   ("Access-Control-Allow-Methods", "GET, POST, OPTIONS");
                   ("Access-Control-Allow-Headers",
                    "Content-Type, Authorization, X-API-Key")];
                payload := NoBody |}).
Proof.
  intros h req Hm. unfold handleHTTP. rewrite Hm. reflexivity.
Qed.

(** C8 at a preflight request to an arbitrary path with a body that is
    not JSON. *)
Lemma C8_witness :
  handleHTTP (Demo.host None)
    {| method := "OPTIONS"; url := Some "/anything/at/all";
       authorization := None; body := "{ not json" |}
  = ([], Ret {| status := 200;
                headers :=
                  [("Access-Control-Allow-Origin", "*");
                   ("Access-Control-Allow-Methods", "GET, POST, OPTIONS");
                   ("Access-Control-Allow-Headers",
                    "Content-Type, Authorization, X-API-Key")];
                payload := NoBody |}).
Proof. apply C8_options_short_circuit. reflexivity. Defined.

(* ================================================================== *)
(** ** Discovery *)

Lemma tools_list_reply : forall h req request,
  postsRpc h req request ->
  prop h request "method" = Ret (JStr "tools/list") ->
  exists id,
    prop h request "id" = Ret id
    /\ handleHTTP h req
       = ([], Ret {| status := 200; headers := jsonHeaders;
                     payload := RpcResponse (ToolsResult httpTools)
                                            (JS.or id JNull) |}).
Proof.
  intros h req request Hpost Hm.
  rewrite (handleHTTP_post Hpost). unfold rpcResult.
  rewrite Hm, bind_lift_ret. cbn [JS.is_str String.eqb Ascii.eqb Bool.eqb].
  rewrite bind_ret_l.
  destruct request; simpl in Hm; try discriminate;
    eexists; (split; [reflexivity|]); reflexivity.
Qed.

(** C3 (as stated, refuted): the list the HTTP adapter serves for
    [tools/list] has three descriptors, not the seven of the
    standard-stream list. *)
Lemma C3_counterexample :
  handleHTTP (Demo.host None) (Demo.post (Demo.rpc "tools/list" JUndef (JNum 1)))
  = ([], Ret {| status := 200; headers := jsonHeaders;
                payload := RpcResponse (ToolsResult httpTools) (JNum 1) |})
  /\ length httpTools = 3%nat
  /\ length (listToolsHandler (Demo.rpc "tools/list" JUndef (JNum 1))) = 7%nat
  /\ httpTools <> listToolsHandler (Demo.rpc "tools/list" JUndef (JNum 1)).
Proof.
  repeat split; try reflexivity. intro H. discriminate H.
Qed.

(** C3 (amended): each adapter serves a fixed sequence that depends on
    neither the request nor the host.  The standard-stream list has
    exactly seven descriptors with pairwise distinct names; the HTTP list
    has exactly three, namely the standard-stream descriptors named
    [analyze_codebase], [generate_unit_tests] and [run_tests], in the same
    relative order. *)
Theorem C3_tool_lists :
  (forall request, listToolsHandler request = stdioTools)
  /\ length stdioTools = 7%nat
  /\ NoDup (map name stdioTools)
  /\ (forall h req request,
        postsRpc h req request ->
        prop h request "method" = Ret (JStr "tools/list") ->
        exists id,
          handleHTTP h req
          = ([], Ret {| status := 200; headers := jsonHeaders;
                        payload := RpcResponse (ToolsResult httpTools) id |}))
  /\ httpTools
     = filter (fun t => mem (name t)
                          ["analyze_codebase"; "generate_unit_tests"; "run_tests"])
              stdioTools
  /\ length httpTools = 3%nat.
Proof.
  split; [reflexivity|]. split; [reflexivity|]. split.
  - repeat constructor; simpl; intuition discriminate.
  - split; [|split; reflexivity].
    intros h req request Hpost Hm.
    destruct (tools_list_reply Hpost Hm) as (id & _ & H).
    eexists; exact H.
Qed.

(* ================================================================== *)
(** ** The [id] of HTTP replies *)

Lemma bind_inv : forall A B (m : M A) (f : A -> M B) log b,
  bind m f = (log, Ret b) ->
  exists a l1 l2,
    m = (l1, Ret a) /\ f a = (l2, Ret b) /\ log = (l1 ++ l2)%list.
Proof.
  intros A B [l1 [a|e]] f log b H; unfold bind in H.
  - destruct (f a) as [l2 r] eqn:Hf. inversion H; subst.
    exists a, l1, l2. auto.
  - discriminate H.
Qed.

Lemma respond_status : forall h text log resp,
  respond h text = (log, Ret resp) -> status resp = 200%nat.
Proof.
  intros h text log resp H. unfold respond in H.
  apply bind_inv in H. destruct H as (request & l1 & l2 & _ & H & _).
  apply bind_inv in H. destruct H as (result & l3 & l4 & _ & H & _).
  apply bind_inv in H. destruct H as (id & l5 & l6 & _ & H & _).
  inversion H. reflexivity.
Qed.

(** Every reply with status 500 comes from the [catch] block and
    carries [id: null], whatever the request said. *)
Lemma error_reply_id : forall h req log resp,
  handleHTTP h req = (log, Ret resp) ->
  status resp = 500%nat ->
  responseId resp = Some JNull.
Proof.
  intros h req log resp H Hs. unfold handleHTTP in H.
  destruct (String.eqb (method req) "OPTIONS").
  { inversion H; subst resp; discriminate Hs. }
  destruct (String.eqb (method req) "POST" && isMcpUrl (url req)).
  { destruct (respond h (body req)) as [l [r|e]] eqn:Hr.
    - simpl in H. inversion H; subst. apply respond_status in Hr.
      rewrite Hr in Hs. discriminate Hs.
    - simpl in H. inversion H; subst. reflexivity. }
  repeat match type of H with
         | (if ?c then _ else _) = _ => destruct c
         end; inversion H; subst resp; discriminate Hs.
Qed.

(** C4: the request carries [id: 2] and names an unknown tool; the reply
    is the error envelope of the [catch] block, whose [id] is [null]. *)
Theorem C4_error_reply_drops_id :
  prop (Demo.host None) (Demo.call "bogus" (JObj []) (JNum 2)) "id"
  = Ret (JNum 2)
  /\ handleHTTP (Demo.host None) (Demo.post (Demo.call "bogus" (JObj []) (JNum 2)))
     = ([], Ret {| status := 500; headers := jsonHeaders;
                   payload := RpcError (-32000) "Unknown tool: bogus" JNull |}).
Proof. split; reflexivity. Qed.

(** A success reply to a request whose [id] is [0] carries [null]:
    [request.id || null] treats every falsy id as absent. *)
Example falsy_id_becomes_null :
  handleHTTP (Demo.host None) (Demo.post (Demo.rpc "ping" JUndef (JNum 0)))
  = ([], Ret {| status := 200; headers := jsonHeaders;
                payload := RpcResponse EmptyResult JNull |}).
Proof. reflexivity. Qed.

(* ================================================================== *)
(** ** Dispatch errors: unknown tool, missing arguments *)

Lemma http_call_reply_throw : forall h req n args e,
  isToolCall h req n args ->
  httpCall h n args = ([], Throw e) ->
  handleHTTP h req
  = ([], Ret {| status := 500; headers := jsonHeaders;
                payload := RpcError (-32000) e JNull |}).
Proof.
  intros h req n args e Hcall He.
  destruct (rpcResult_call Hcall) as (request & Hpost & _ & Hrpc).
  rewrite (handleHTTP_post Hpost), Hrpc, He. reflexivity.
Qed.

Lemma stdio_unknown : forall h n args,
  JS.truthy args = true ->
  knownTo stdioTools n = false ->
  callToolHandler h n args
  = ([], Ret (textResult ("Error executing " ++ JS.toStr n
                          ++ ": Unknown tool: " ++ JS.toStr n))).
Proof.
  intros h n args Ha Hn. unfold callToolHandler. rewrite Ha.
  destruct n; try reflexivity.
  unfold knownTo in Hn. simpl in Hn.
  repeat (apply orb_false_iff in Hn; destruct Hn as [?H Hn]).
  simpl. rewrite H, H0, H1, H2, H3, H4, H5. reflexivity.
Qed.

Lemma http_unknown : forall h n args,
  JS.truthy args = true ->
  knownTo httpTools n = false ->
  httpCall h n args
  = ([], Throw (if JS.converts n then "Unknown tool: " ++ JS.toStr n
                else message_of h (NotPrimitive n))).
Proof.
  intros h n args Ha Hn. unfold httpCall. rewrite Ha.
  assert (E : JS.is_str n "analyze_codebase" = false
              /\ JS.is_str n "generate_unit_tests" = false
              /\ JS.is_str n "run_tests" = false).
  { unfold knownTo in Hn. simpl in Hn.
    repeat (apply orb_false_iff in Hn; destruct Hn as [?H Hn]). auto. }
  destruct E as (E1 & E2 & E3). simpl negb. cbv iota.
  rewrite E1, E2, E3. unfold template.
  destruct (JS.converts n); reflexivity.
Qed.

(** The name is converted as a template literal converts it. *)
Example http_unknown_names : forall h,
  httpCall h (JNum (10 ^ 21)) (JObj [])
  = ([], Throw "Unknown tool: 1e+21")
  /\ httpCall h (JObj [("toString", JNum 1)]) (JObj [])
     = ([], Throw (message_of h (NotPrimitive (JObj [("toString", JNum 1)]))))
  /\ httpCall h (JArr [JStr "a"; JNull; JNum 2]) (JObj [])
     = ([], Throw "Unknown tool: a,,2").
Proof. intro h. repeat split; reflexivity. Qed.

(** A tool of the standard-stream registry that the HTTP switch does not
    know. *)
Example http_does_not_know_suggest_fixes : forall h,
  knownTo stdioTools (JStr "suggest_fixes") = true
  /\ httpCall h (JStr "suggest_fixes") (JObj [])
     = ([], Throw "Unknown tool: suggest_fixes").
Proof. intro h. split; reflexivity. Qed.

(** C1 (as stated, refuted): on the standard-stream path the call of a
    tool that is not registered comes back as a Success envelope whose
    text reports the error. *)
Lemma C1_counterexample :
  knownTo stdioTools (JStr "bogus") = false
  /\ stdioCall (Demo.host None) (JStr "bogus") (JObj [])
     = ([], Success (textResult "Error executing bogus: Unknown tool: bogus")).
Proof. split; reflexivity. Qed.

(** C1 (amended): for a call that carries arguments and names a tool the
    path's [switch] has no case for, no tool handler runs and no event
    occurs.  On the HTTP path (whose cases are the three tools of its own
    list) the reply is a Failure envelope: status 500, code -32000, and
    the message "Unknown tool: <name>", the name converted as a template
    literal converts it, or the runtime's TypeError message when that
    conversion throws.  On the standard-stream path (seven cases), where
    the name is a string, the thrown error is caught by the handler and
    returned as a Success envelope with the single text "Error executing
    <name>: Unknown tool: <name>". *)
Theorem C1_unknown_tool : forall h args,
  JS.truthy args = true ->
  (forall s,
     knownTo stdioTools (JStr s) = false ->
     stdioCall h (JStr s) args
     = ([], Success
              {| content :=
                   [ {| type := "text";
                        text := "Error executing " ++ s
                                ++ ": Unknown tool: " ++ s |} ] |}))
  /\ (forall n req,
        knownTo httpTools n = false ->
        isToolCall h req n args ->
        handleHTTP h req
        = ([], Ret {| status := 500; headers := jsonHeaders;
                      payload :=
                        RpcError (-32000)
                          (if JS.converts n then "Unknown tool: " ++ JS.toStr n
                           else message_of h (NotPrimitive n))
                          JNull |})).
Proof.
  intros h args Ha. split.
  - intros s Hn. unfold stdioCall.
    rewrite (@stdio_unknown h (JStr s) args Ha Hn). reflexivity.
  - intros n req Hn Hcall.
    exact (http_call_reply_throw Hcall (@http_unknown h n args Ha Hn)).
Qed.

Lemma demo_posts_call : forall key n args id,
  In (Demo.call n args id) Demo.documents ->
  Demo.parseDoc (Json.stringify2 (Demo.call n args id))
  = Some (Demo.call n args id) ->
  isToolCall (Demo.host key) (Demo.post (Demo.call n args id)) (JStr n) args.
Proof.
  intros key n args id _ Hp.
  exists (Demo.call n args id), (JObj [("name", JStr n); ("arguments", args)]).
  repeat split; try reflexivity. exact Hp.
Qed.

(** C1 (amended) at the unregistered name "bogus", on both paths. *)
Lemma C1_witness :
  stdioCall (Demo.host None) (JStr "bogus") (JObj [])
  = ([], Success (textResult "Error executing bogus: Unknown tool: bogus"))
  /\ handleHTTP (Demo.host None) (Demo.post (Demo.call "bogus" (JObj []) (JNum 2)))
     = ([], Ret {| status := 500; headers := jsonHeaders;
                   payload := RpcError (-32000) "Unknown tool: bogus" JNull |}).
Proof.
  destruct (@C1_unknown_tool (Demo.host None) (JObj []) eq_refl) as [Hs Hh].
  split.
  - exact (Hs "bogus" eq_refl).
  - apply (Hh (JStr "bogus") _ eq_refl). apply demo_posts_call.
    + simpl. tauto.
    + reflexivity.
Defined.





(* ================================================================== *)
(** ** The bearer-token check *)

Lemma apiKey_nonempty : forall h, apiKey h <> "".
Proof.
  intro h. unfold apiKey.
  destruct (env_MCP_API_KEY h) as [k|]; [|discriminate].
  destruct (String.eqb k "") eqn:E; [discriminate|].
  apply String.eqb_neq. exact E.
Qed.

Lemma substring_all : forall t, String.substring 0 (String.length t) t = t.
Proof.
  induction t as [|c t IH]; [reflexivity|]. simpl. f_equal. exact IH.
Qed.

Lemma bearerToken_strips : forall t, bearerToken ("Bearer " ++ t) = t.
Proof.
  intro t. unfold bearerToken, Str.startsWith, Str.slice. simpl.
  replace (String.prefix "" t) with true by (destruct t; reflexivity).
  rewrite Nat.sub_0_r. apply substring_all.
Qed.

(** C6 (as stated, refuted): with [MCP_API_KEY] set to the empty string
    the header "default-dev-key" is accepted although it differs from the
    environment value. *)
Lemma C6_counterexample :
  env_MCP_API_KEY (Demo.host (Some "")) = Some ""
  /\ authenticateRequest (Demo.host (Some ""))
       {| method := "POST"; url := Some "/auth";
          authorization := Some "default-dev-key"; body := "" |}
     = true
  /\ bearerToken "default-dev-key" <> configuredKey_spec (Demo.host (Some "")).
Proof. repeat split. intro H. discriminate H. Qed.

(** C6 (amended): [authenticateRequest] returns false when the
    Authorization header is absent, and otherwise returns true exactly
    when the header value, a leading "Bearer " stripped if present, equals
    the configured key; the configured key is the value of [MCP_API_KEY]
    when that is set and not empty, and "default-dev-key" when it is unset
    or empty.  The gate in front of the MCP endpoint is disabled: the
    reply to a POST there does not depend on the Authorization header. *)
Theorem C6_authenticateRequest : forall h req,
  (authorization req = None -> authenticateRequest h req = false)
  /\ (forall a, authorization req = Some a ->
        (authenticateRequest h req = true <-> bearerToken a = apiKey h))
  /\ (forall k, env_MCP_API_KEY h = Some k -> k <> "" -> apiKey h = k)
  /\ (env_MCP_API_KEY h = None \/ env_MCP_API_KEY h = Some "" ->
      apiKey h = defaultKey)
  /\ (forall a, method req = "POST" -> isMcpUrl (url req) = true ->
        handleHTTP h (withAuthorization a req) = handleHTTP h req).
Proof.
  intros h req. repeat apply conj.
  - intro H. unfold authenticateRequest. rewrite H. reflexivity.
  - intros a H. unfold authenticateRequest. rewrite H.
    destruct (String.eqb a "") eqn:E.
    + apply String.eqb_eq in E. subst a. split; [discriminate|].
      intro Hk. exfalso. apply (@apiKey_nonempty h). symmetry. exact Hk.
    + apply String.eqb_eq.
  - intros k H Hk. unfold apiKey. rewrite H.
    apply String.eqb_neq in Hk. rewrite Hk. reflexivity.
  - intros [H|H]; unfold apiKey; rewrite H; reflexivity.
  - intros a Hm Hu. unfold handleHTTP, withAuthorization. simpl.
    rewrite Hm, Hu. reflexivity.
Qed.

(** C6 (amended) at a configured key presented as a bearer token. *)
Lemma C6_witness :
  authenticateRequest (Demo.host (Some "s3cret"))
    {| method := "POST"; url := Some "/auth";
       authorization := Some "Bearer s3cret"; body := "" |}
  = true.
Proof.
  apply (proj1 (proj2 (@C6_authenticateRequest (Demo.host (Some "s3cret"))
                         {| method := "POST"; url := Some "/auth";
                            authorization := Some "Bearer s3cret";
                            body := "" |}))
           "Bearer s3cret" eq_refl).
  reflexivity.
Defined.

(* ================================================================== *)
(** ** [run_tests]: execution outcomes *)

Lemma runTests_run : forall h projectPath testPattern framework command,
  commandLine h projectPath testPattern framework = Ret command ->
  let called := Call "runTests" [projectPath; testPattern; framework] in
  let spawned := Spawn command projectPath testTimeout in
  let killed := Kill command "SIGTERM" in
  runTests h projectPath testPattern framework
  = match spawn h command projectPath with
    | SpawnFails message => ([called], Ret (failedRun message))
    | Exits after code stdout stderr =>
        if (after <=? Npos testTimeout)%N then
          if (code =? 0)%Z then
            ([called; spawned],
             Ret (testResultText {| success := String.eqb stderr "";
                                    output := stdout; errors := stderr |}))
          else
            ([called; spawned],
             Ret (failedRun (message_of h (CommandFailed command stderr))))
        else
          ([called; spawned; killed],
           Ret (failedRun (message_of h (CommandKilled command))))
    | Dies after stderr =>
        if (after <=? Npos testTimeout)%N then
          ([called; spawned],
           Ret (failedRun (message_of h (CommandFailed command stderr))))
        else
          ([called; spawned; killed],
           Ret (failedRun (message_of h (CommandKilled command))))
    | Floods =>
        ([called; spawned; killed],
         Ret (failedRun (message_of h (MaxBufferExceeded command))))
    | Hangs =>
        ([called; spawned; killed],
         Ret (failedRun (message_of h (CommandKilled command))))
    end.
Proof.
  intros h projectPath testPattern framework command Hc called spawned killed.
  unfold runTests. rewrite Hc, bind_lift_ret. unfold execAsync.
  destruct (spawn h command projectPath) as [m|after code out err|after err| |];
    try reflexivity.
  - destruct (after <=? Npos testTimeout)%N; [|reflexivity].
    destruct (code =? 0)%Z; reflexivity.
  - destruct (after <=? Npos testTimeout)%N; reflexivity.
Qed.

(** [runTests] never throws: every path ends in a returned result. *)
Lemma runTests_returns : forall h projectPath testPattern framework,
  exists log r, runTests h projectPath testPattern framework = (log, Ret r).
Proof.
  intros h projectPath testPattern framework.
  destruct (commandLine h projectPath testPattern framework) as [c|e] eqn:Hc.
  - rewrite (@runTests_run h _ _ _ c Hc).
    destruct (spawn h c projectPath) as [m|after code out err|after err| |];
      try (eexists; eexists; reflexivity).
    + destruct (after <=? Npos testTimeout)%N;
        [destruct (code =? 0)%Z|]; eexists; eexists; reflexivity.
    + destruct (after <=? Npos testTimeout)%N; eexists; eexists; reflexivity.
  - unfold runTests. rewrite Hc. eexists; eexists; reflexivity.
Qed.

Lemma prop_total : forall h v k x k',
  prop h v k = Ret x -> exists y, prop h v k' = Ret y.
Proof.
  intros h v k x k' H.
  destruct v; simpl in *; try discriminate; eexists; reflexivity.
Qed.

Lemma http_call_reply_ret : forall h req n args log r,
  isToolCall h req n args ->
  httpCall h n args = (log, Ret r) ->
  exists id,
    handleHTTP h req
    = (log, Ret {| status := 200; headers := jsonHeaders;
                   payload := RpcResponse (CallResult r) id |}).
Proof.
  intros h req n args log r Hcall Hr.
  destruct (rpcResult_call Hcall) as (request & Hpost & Hm & Hrpc).
  destruct (@prop_total h request "method" _ "id" Hm) as (id & Hid).
  exists (JS.or id JNull).
  rewrite (handleHTTP_post Hpost), Hrpc, Hr, Hid.
  unfold bind, ret, lift, try_catch. simpl. rewrite !app_nil_r. reflexivity.
Qed.

(** X24: when the subprocess of a [run_tests] call fails (it cannot be
    started, exits non-zero, is ended by a signal, floods its pipes, or
    is still running after the 60-second timeout), the dispatcher returns
    a Success envelope whose content is one block of type "text" that
    serialises [{ success: false, output: '', errors: <message> }], the
    message being that of the error [exec] rejected with; this holds on
    the standard-stream path and, with status 200, on the HTTP path. *)
Theorem X24_failed_run_is_a_result : forall h args command,
  JS.truthy args = true ->
  commandLine h (arg h args "projectPath") (arg h args "testPattern")
              (arg h args "framework") = Ret command ->
  fails (spawn h command (arg h args "projectPath")) = true ->
  let result :=
    {| content :=
         [ {| type := "text";
              text :=
                Json.stringify2
                  (JObj [("success", JBool false);
                         ("output", JStr "");
                         ("errors",
                          JStr (failureMessage h command
                                  (spawn h command (arg h args "projectPath"))))])
           |} ] |} in
  exists log,
    stdioCall h (JStr "run_tests") args = (log, Success result)
    /\ (forall req,
          isToolCall h req (JStr "run_tests") args ->
          exists id,
            handleHTTP h req
            = (log, Ret {| status := 200; headers := jsonHeaders;
                           payload := RpcResponse (CallResult result) id |})).
Proof.
  intros h args command Ha Hc Hf.
  pose proof (@runTests_run h _ _ _ command Hc) as Hrun. cbv zeta in Hrun.
  assert (Hboth : forall log message,
             runTests h (arg h args "projectPath") (arg h args "testPattern")
                      (arg h args "framework") = (log, Ret (failedRun message)) ->
             exists log0,
               stdioCall h (JStr "run_tests") args
               = (log0, Success (failedRun message))
               /\ (forall req,
                     isToolCall h req (JStr "run_tests") args ->
                     exists id,
                       handleHTTP h req
                       = (log0, Ret {| status := 200; headers := jsonHeaders;
                                       payload :=
                                         RpcResponse
                                           (CallResult (failedRun message)) id |}))).
  { intros log message H. exists log. split.
    - unfold stdioCall, callToolHandler. rewrite Ha.
      cbn [negb JS.is_str String.eqb Ascii.eqb Bool.eqb]. rewrite H.
      reflexivity.
    - intros req Hcall. apply (http_call_reply_ret Hcall).
      unfold httpCall. rewrite Ha.
      cbn [negb JS.is_str String.eqb Ascii.eqb Bool.eqb]. exact H. }
  destruct (spawn h command (arg h args "projectPath"))
    as [m|after code out err|after err| |]; simpl in Hf; simpl failureMessage.
  - exact (Hboth _ _ Hrun).
  - destruct (after <=? Npos testTimeout)%N; simpl in Hf.
    + destruct (code =? 0)%Z; [discriminate Hf|]. exact (Hboth _ _ Hrun).
    + exact (Hboth _ _ Hrun).
  - destruct (after <=? Npos testTimeout)%N; exact (Hboth _ _ Hrun).
  - exact (Hboth _ _ Hrun).
  - exact (Hboth _ _ Hrun).
Qed.

(** X24 at a project whose test command exits with code 1. *)
Lemma X24_witness :
  exists log,
    stdioCall (Demo.host None) (JStr "run_tests") (Demo.projArgs "broken")
    = (log,
       Success
         {| content :=
              [ {| type := "text";
                   text :=
                     Json.stringify2
                       (JObj [("success", JBool false);
                              ("output", JStr "");
                              ("errors",
                               JStr (failureMessage (Demo.host None)
                                       "npx jest --verbose --coverage"
                                       (spawn (Demo.host None)
                                          "npx jest --verbose --coverage"
                                          (arg (Demo.host None)
                                             (Demo.projArgs "broken")
                                             "projectPath"))))])
                |} ] |})
    /\ (forall req,
          isToolCall (Demo.host None) req (JStr "run_tests")
                     (Demo.projArgs "broken") ->
          exists id,
            handleHTTP (Demo.host None) req
            = (log,
               Ret {| status := 200; headers := jsonHeaders;
                      payload :=
                        RpcResponse
                          (CallResult
                             {| content :=
                                  [ {| type := "text";
                                       text :=
                                         Json.stringify2
                                           (JObj [("success", JBool false);
                                                  ("output", JStr "");
                                                  ("errors",
                                                   JStr (failureMessage
                                                           (Demo.host None)
                                                           "npx jest --verbose --coverage"
                                                           (spawn (Demo.host None)
                                                              "npx jest --verbose --coverage"
                                                              (arg (Demo.host None)
                                                                 (Demo.projArgs "broken")
                                                                 "projectPath"))))])
                                    |} ] |})
                          id |})).
Proof.
  apply (@X24_failed_run_is_a_result (Demo.host None) (Demo.projArgs "broken")
           "npx jest --verbose --coverage");
    reflexivity.
Defined.


Example C2_non_zero_exit :
  stdioCall (Demo.host None) (JStr "run_tests") (Demo.projArgs "broken")
  = ([Call "runTests" [JStr "broken"; JUndef; JUndef];
      Spawn "npx jest --verbose --coverage" (JStr "broken") testTimeout],
     Success (failedRun ("Command failed: npx jest --verbose --coverage"
                         ++ Json.nl ++ "1 failed"))).
Proof. reflexivity. Qed.

(** The same timeout seen through the HTTP adapter: status 200 and a
    Success envelope around the failure-shaped result. *)
Example C2_http_timeout :
  handleHTTP (Demo.host None)
    (Demo.post (Demo.call "run_tests" (Demo.projArgs "slow") (JNum 4)))
  = ([Call "runTests" [JStr "slow"; JUndef; JUndef];
      Spawn "npx jest --verbose --coverage" (JStr "slow") testTimeout;
      Kill "npx jest --verbose --coverage" "SIGTERM"],
     Ret {| status := 200; headers := jsonHeaders;
            payload :=
              RpcResponse
                (CallResult
                   (failedRun ("Command failed: npx jest --verbose --coverage"
                               ++ Json.nl)))
                (JNum 4) |})
  /\ httpEnvelope
       {| status := 200; headers := jsonHeaders;
          payload :=
            RpcResponse
              (CallResult
                 (failedRun ("Command failed: npx jest --verbose --coverage"
                             ++ Json.nl)))
              (JNum 4) |}
     = Some (Success (failedRun ("Command failed: npx jest --verbose --coverage"
                                 ++ Json.nl))).
Proof. split; reflexivity. Qed.



(** A zero exit with warnings on stderr is reported as a failure. *)
Example C9_warning_fails : forall h projectPath testPattern framework command,
  commandLine h projectPath testPattern framework = Ret command ->
  spawn h command projectPath = Exits 10 0 "ok" "warning: deprecated" ->
  outcome (runTests h projectPath testPattern framework)
  = Ret (testResultText {| success := false; output := "ok";
                           errors := "warning: deprecated" |}).
Proof.
  intros h projectPath testPattern framework command Hc Hs.
  pose proof (@runTests_run h _ _ _ command Hc) as Hrun. cbv zeta in Hrun.
  rewrite Hs in Hrun. rewrite Hrun. reflexivity.
Qed.

(* ================================================================== *)
(** ** The directory walk *)

Lemma reaches_nil : forall dir path, ~ reaches dir [] path.
Proof. intros dir path H. inversion H; subst; contradiction. Qed.

Lemma reaches_cons : forall dir item n rest path,
  reaches dir ((item, n) :: rest) path
  <-> match n with
      | File _ => path = Path.join dir item
      | Dir sub => descends item = true /\ reaches (Path.join dir item) sub path
      | _ => False
      end
      \/ reaches dir rest path.
Proof.
  intros dir item n rest path. split.
  - intro H. inversion H as [d its i text Hin | d its i sub p Hin Hdot Hnm Hsub];
      subst; destruct Hin as [Heq|Hin].
    + inversion Heq; subst. left. reflexivity.
    + right. eapply reaches_file; eassumption.
    + inversion Heq; subst. left. split; [|assumption].
      unfold descends. rewrite Hdot. apply String.eqb_neq in Hnm.
      rewrite Hnm. reflexivity.
    + right. eapply reaches_dir; eassumption.
  - intros [H|H].
    + destruct n as [text|sub| | |]; try contradiction.
      * subst path. eapply reaches_file. left. reflexivity.
      * destruct H as [Hd Hsub]. unfold descends in Hd.
        apply andb_true_iff in Hd. destruct Hd as [Hdot Hnm].
        apply negb_true_iff in Hdot, Hnm. apply String.eqb_neq in Hnm.
        eapply reaches_dir; [left; reflexivity| | |]; eassumption.
    + inversion H as [d its i text Hin | d its i sub p Hin Hdot Hnm Hsub]; subst.
      * eapply reaches_file. right. eassumption.
      * eapply reaches_dir; [right| | |]; eassumption.
Qed.

Lemma visit_dir : forall h fullPath item sub files,
  visit h fullPath item (Dir sub) files
  = if descends item then getAllFilesIn h fullPath sub files else Ret files.
Proof.
  intros h fullPath item sub files. unfold descends. simpl.
  destruct (negb (Str.startsWith item ".")
            && negb (String.eqb item "node_modules")); [|reflexivity].
  revert files. induction sub as [|[i c] rest IH]; intro files; simpl.
  - reflexivity.
  - destruct (visit h (Path.join fullPath i) i c files); simpl;
      [apply IH|reflexivity].
Qed.

Lemma visit_locked : forall h fullPath item files,
  visit h fullPath item Locked files
  = if descends item
    then Throw (message_of h (FsError "readdir" (JStr fullPath)))
    else Ret files.
Proof. reflexivity. Qed.

Lemma getAllFilesIn_cons : forall h dir item n rest files,
  getAllFilesIn h dir ((item, n) :: rest) files
  = rbind (visit h (Path.join dir item) item n files) (getAllFilesIn h dir rest).
Proof. reflexivity. Qed.

Lemma walkable_cons : forall item n rest,
  walkable ((item, n) :: rest) = passable item n && walkable rest.
Proof. reflexivity. Qed.

Lemma passable_dir : forall item sub,
  passable item (Dir sub) = if descends item then walkable sub else true.
Proof. reflexivity. Qed.

(** One turn of the loop, and the whole loop: when they return and what
    they add, when they throw. *)
Lemma walk_spec : forall h n fullPath item files,
  (passable item n = true ->
   exists out,
     visit h fullPath item n files = Ret out
     /\ forall path,
          In path out
          <-> In path files
              \/ match n with
                 | File _ => path = fullPath
                 | Dir sub => descends item = true /\ reaches fullPath sub path
                 | _ => False
                 end)
  /\ (passable item n = false ->
      exists e, visit h fullPath item n files = Throw e).
Proof.
  intros h n0. pattern n0.
  apply node_listing_ind
    with (Q := fun items =>
                 forall dir files,
                   (walkable items = true ->
                    exists out,
                      getAllFilesIn h dir items files = Ret out
                      /\ forall path,
                           In path out
                           <-> In path files \/ reaches dir items path)
                   /\ (walkable items = false ->
                       exists e, getAllFilesIn h dir items files = Throw e)).
  - intros text fullPath item files. split; [|discriminate].
    intros _. eexists. split; [reflexivity|]. intro path.
    rewrite in_app_iff. simpl. intuition.
  - intros fullPath item files. split; [|discriminate].
    intros _. eexists. split; [reflexivity|]. intro path. tauto.
  - intros fullPath item files. rewrite visit_locked. simpl.
    destruct (descends item); simpl; split; try discriminate.
    + intros _. eexists. reflexivity.
    + intros _. eexists. split; [reflexivity|]. intro path. tauto.
  - intros fullPath item files. split; [discriminate|].
    intros _. eexists. reflexivity.
  - intros items IH fullPath item files. rewrite visit_dir, passable_dir.
    destruct (descends item).
    + destruct (IH fullPath files) as [Hok Hbad]. split.
      * intro Hw. destruct (Hok Hw) as (out & Ho & Hin).
        exists out. split; [exact Ho|]. intro path. rewrite Hin. intuition.
      * exact Hbad.
    + split; [|discriminate]. intros _. eexists. split; [reflexivity|].
      intro path. intuition discriminate.
  - intros dir files. split; [|discriminate]. intros _.
    eexists. split; [reflexivity|]. intro path. split; [tauto|].
    intros [H|H]; [assumption|]. exfalso. exact (reaches_nil H).
  - intros item n rest IHn IHrest dir files.
    rewrite getAllFilesIn_cons, walkable_cons.
    destruct (IHn (Path.join dir item) item files) as [Hok Hbad].
    destruct (passable item n).
    + destruct (Hok eq_refl) as (out1 & Ho1 & Hin1). rewrite Ho1. simpl.
      destruct (IHrest dir out1) as [Rok Rbad]. split.
      * intro Hw. destruct (Rok Hw) as (out & Ho & Hin).
        exists out. split; [exact Ho|]. intro path.
        rewrite Hin, Hin1, reaches_cons. tauto.
      * exact Rbad.
    + destruct (Hbad eq_refl) as (e & He). rewrite He. simpl.
      split; [discriminate|]. intros _. exists e. reflexivity.
Qed.

Lemma getAllFilesIn_spec : forall h items dir files,
  (walkable items = true ->
   exists out,
     getAllFilesIn h dir items files = Ret out
     /\ forall path, In path out <-> In path files \/ reaches dir items path)
  /\ (walkable items = false ->
      exists e, getAllFilesIn h dir items files = Throw e).
Proof.
  intros h items. induction items as [|[item n] rest IH]; intros dir files.
  - split; [|discriminate]. intros _.
    eexists. split; [reflexivity|]. intro path. split; [tauto|].
    intros [H|H]; [assumption|]. exfalso. exact (reaches_nil H).
  - rewrite getAllFilesIn_cons, walkable_cons.
    destruct (walk_spec h n (Path.join dir item) item files) as [Hok Hbad].
    destruct (passable item n).
    + destruct (Hok eq_refl) as (out1 & Ho1 & Hin1). rewrite Ho1. simpl.
      destruct (IH dir out1) as [Rok Rbad]. split.
      * intro Hw. destruct (Rok Hw) as (out & Ho & Hin).
        exists out. split; [exact Ho|]. intro path.
        rewrite Hin, Hin1, reaches_cons. tauto.
      * exact Rbad.
    + destruct (Hbad eq_refl) as (e & He). rewrite He. simpl.
      split; [discriminate|]. intros _. exists e. reflexivity.
Qed.

(** C7 (as stated, refuted): a dot-named regular file in a directory the
    walk visits is part of the result. *)
Lemma C7_counterexample :
  exists files,
    getAllFiles (Demo.host None) (JStr "proj") = Ret files
    /\ In (".env", File "SECRET=1") Demo.tree
    /\ Str.startsWith ".env" "." = true
    /\ In (Path.join "proj" ".env") files.
Proof.
  eexists. split; [reflexivity|]. simpl. tauto.
Qed.

(** C7 (amended): for a root that is a directory, [getAllFiles] returns
    a result exactly when [fs.stat] accepts every entry the walk meets
    and [fs.readdir] every directory it enters, and rejects otherwise.
    The result holds exactly the regular files that lie below the root
    through directories that are neither dot-named nor called
    [node_modules]; such directories are not entered, so nothing below
    them appears, while the name of a regular file is not examined, so a
    dot-named file in a visited directory does appear. *)
Theorem C7_getAllFiles_amended : forall h root items,
  fs_at h root = Some (Dir items) ->
  (walkable items = true ->
   exists files,
     getAllFiles h (JStr root) = Ret files
     /\ forall path, In path files <-> reaches root items path)
  /\ (walkable items = false ->
      exists e, getAllFiles h (JStr root) = Throw e).
Proof.
  intros h root items Hfs.
  assert (E : getAllFiles h (JStr root) = getAllFilesIn h root items []).
  { unfold getAllFiles, readdir. rewrite Hfs. reflexivity. }
  rewrite E. destruct (getAllFilesIn_spec h items root []) as [Hok Hbad].
  split; [|exact Hbad].
  intro Hw. destruct (Hok Hw) as (out & Ho & Hin).
  exists out. split; [exact Ho|]. intro path. rewrite Hin. simpl. tauto.
Qed.

(** C7 (amended) at the demo project. *)
Lemma C7_witness :
  exists files,
    getAllFiles (Demo.host None) (JStr "proj") = Ret files
    /\ forall path, In path files <-> reaches "proj" Demo.tree path.
Proof.
  apply (proj1 (@C7_getAllFiles_amended (Demo.host None) "proj" Demo.tree
                  eq_refl)).
  reflexivity.
Defined.

(** A link to nowhere below the root makes the whole walk fail, also in
    a directory the walk would not have entered by its name. *)
Example walk_fails_on_dangling_link : forall h root,
  fs_at h root
  = Some (Dir [("a.js", File "x"); ("node_modules", Dangling)]) ->
  getAllFiles h (JStr root)
  = Throw (message_of h (FsError "stat" (JStr (Path.join root "node_modules")))).
Proof.
  intros h root H. unfold getAllFiles, readdir. rewrite H. reflexivity.
Qed.

(* ================================================================== *)
(** ** Classification of the files of a project *)

Lemma lookup_set_same : forall k v o, JS.lookup k (JS.set k v o) = Some v.
Proof.
  intros k v o. induction o as [|[k' v'] o IH]; simpl.
  - rewrite String.eqb_refl. reflexivity.
  - destruct (String.eqb k k') eqn:E; simpl.
    + rewrite String.eqb_refl. reflexivity.
    + rewrite E. exact IH.
Qed.

Lemma lookup_set_other : forall k k' v o,
  k <> k' -> JS.lookup k' (JS.set k v o) = JS.lookup k' o.
Proof.
  intros k k' v o Hne. induction o as [|[k0 v0] o IH]; simpl.
  - destruct (String.eqb k' k) eqn:E; [|reflexivity].
    apply String.eqb_eq in E. congruence.
  - destruct (String.eqb k k0) eqn:E; simpl.
    + apply String.eqb_eq in E. subst k0.
      destruct (String.eqb k' k) eqn:E'; [|reflexivity].
      apply String.eqb_eq in E'. congruence.
    + rewrite IH. reflexivity.
Qed.

Lemma arr_set_other : forall k k' v o,
  k <> k' -> arr k' (JS.set k v o) = arr k' o.
Proof. intros. unfold arr. rewrite lookup_set_other by assumption. reflexivity. Qed.

Lemma arr_push_same : forall k xs o,
  arr k (push k xs o) = (arr k o ++ map JStr xs)%list.
Proof. intros. unfold push. unfold arr at 1. rewrite lookup_set_same. reflexivity. Qed.

Lemma arr_push_other : forall k k' xs o,
  k <> k' -> arr k' (push k xs o) = arr k' o.
Proof. intros. unfold push. apply arr_set_other. assumption. Qed.

(** A file that the test predicate accepts is never a source file. *)
Lemma test_file_not_source : forall f, isTestFile f = true -> isSourceFile f = false.
Proof.
  intros f H. unfold isSourceFile. rewrite H. apply andb_false_r.
Qed.

(** What the two arrays of an [analysis] object may hold. *)
Lemma classified_start : forall h projectPath,
  arr "testableComponents" (detectPython h projectPath (detectNode h projectPath analysis0)) = []
  /\ arr "existingTests" (detectPython h projectPath (detectNode h projectPath analysis0)) = [].
Proof.
  intros h projectPath. unfold detectPython, detectNode.
  destruct (exists_in h projectPath "requirements.txt");
    destruct (readPackageJson h projectPath) as [pkg|e];
    try destruct (depsOf h pkg) as [deps|e'];
    repeat match goal with
           | |- context [if ?c then _ else _] => destruct c
           end;
    split; rewrite ?arr_set_other by discriminate; reflexivity.
Qed.

Lemma classify_keeps : forall h file o o',
  classify h file o = Ret o' ->
  (forall f, In (JStr f) (arr "testableComponents" o) -> isSourceFile f = true) ->
  (forall f, In (JStr f) (arr "existingTests" o) -> isTestFile f = true) ->
  (forall f, In (JStr f) (arr "testableComponents" o') -> isSourceFile f = true)
  /\ (forall f, In (JStr f) (arr "existingTests" o') -> isTestFile f = true).
Proof.
  intros h file o o' H Hs Ht. unfold classify in H.
  destruct (readFile h (JStr file)) as [content|e]; [|discriminate H].
  simpl in H. inversion H; subst o'; clear H.
  set (a1 := if String.eqb (Path.extname file) ".js"
                || String.eqb (Path.extname file) ".ts"
             then push "apiEndpoints" (scanJSAPIEndpoints h content) o
             else if String.eqb (Path.extname file) ".py"
                  then push "apiEndpoints" (scanPythonAPIEndpoints h content) o
                  else o).
  assert (Ha1 : arr "testableComponents" a1 = arr "testableComponents" o
                /\ arr "existingTests" a1 = arr "existingTests" o).
  { unfold a1.
    destruct (String.eqb (Path.extname file) ".js"
              || String.eqb (Path.extname file) ".ts");
      [|destruct (String.eqb (Path.extname file) ".py")];
      split; rewrite ?arr_push_other by discriminate; reflexivity. }
  destruct Ha1 as [Ha1s Ha1t].
  destruct (isSourceFile file) eqn:Es; destruct (isTestFile file) eqn:Et;
    split; intros f Hin;
    rewrite ?arr_push_same, ?arr_push_other in Hin by discriminate;
    rewrite ?arr_push_same, ?arr_push_other in Hin by discriminate;
    rewrite ?Ha1s, ?Ha1t in Hin;
    try (apply in_app_iff in Hin; destruct Hin as [Hin|[Hin|[]]];
         [|inversion Hin; subst; assumption]);
    auto.
Qed.

Lemma classifyAll_keeps : forall h files o o',
  classifyAll h files o = Ret o' ->
  (forall f, In (JStr f) (arr "testableComponents" o) -> isSourceFile f = true) ->
  (forall f, In (JStr f) (arr "existingTests" o) -> isTestFile f = true) ->
  (forall f, In (JStr f) (arr "testableComponents" o') -> isSourceFile f = true)
  /\ (forall f, In (JStr f) (arr "existingTests" o') -> isTestFile f = true).
Proof.
  intros h files. induction files as [|file rest IH]; intros o o' H Hs Ht.
  - simpl in H. inversion H; subst. split; assumption.
  - simpl in H. destruct (classify h file o) as [o1|e] eqn:Hc; [|discriminate H].
    simpl in H. destruct (classify_keeps h file o Hc Hs Ht) as [Hs1 Ht1].
    exact (IH o1 o' H Hs1 Ht1).
Qed.

(** C10: a file that [isTestFile] accepts is rejected by [isSourceFile],
    and in the [analysis] object that [analyzeCodebase] serialises no path
    occurs both in [testableComponents] and in [existingTests]. *)
Theorem C10_components_and_tests_disjoint :
  (forall f, isTestFile f = true -> isSourceFile f = false)
  /\ (forall h projectPath analysis,
        analyze h projectPath = Ret analysis ->
        forall f,
          ~ (In (JStr f) (arr "testableComponents" analysis)
             /\ In (JStr f) (arr "existingTests" analysis))).
Proof.
  split; [exact test_file_not_source|].
  intros h projectPath analysis H f [Hs Ht].
  unfold analyze in H.
  destruct (getAllFiles h projectPath) as [files|e]; [|discriminate H].
  simpl in H.
  destruct (classified_start h projectPath) as [E1 E2].
  destruct (@classifyAll_keeps h files _ analysis H) as [Ks Kt].
  - intros g Hg. rewrite E1 in Hg. contradiction.
  - intros g Hg. rewrite E2 in Hg. contradiction.
  - apply Ks in Hs. apply Kt in Ht. apply test_file_not_source in Ht.
    congruence.
Qed.

(** C10 at the demo project: one component, one test, no overlap. *)
Lemma C10_witness :
  exists analysis,
    analyze (Demo.host None) (JStr "proj") = Ret analysis
    /\ arr "testableComponents" analysis = [JStr "proj/src/app.js"]
    /\ arr "existingTests" analysis = [JStr "proj/src/app.test.js"]
    /\ forall f,
         ~ (In (JStr f) (arr "testableComponents" analysis)
            /\ In (JStr f) (arr "existingTests" analysis)).
Proof.
  eexists. split; [reflexivity|]. split; [reflexivity|]. split; [reflexivity|].
  apply (proj2 C10_components_and_tests_disjoint (Demo.host None) (JStr "proj")).
  reflexivity.
Defined.

(* ================================================================== *)
(** * Further properties of the server *)

(** ** Strings *)

Lemma prefix_empty : forall s, String.prefix "" s = true.
Proof. destruct s; reflexivity. Qed.

Lemma prefix_app : forall p x, String.prefix p (p ++ x) = true.
Proof.
  induction p as [|c p IH]; intro x; simpl.
  - apply prefix_empty.
  - destruct (ascii_dec c c) as [_|N]; [apply IH|congruence].
Qed.

Lemma prefix_app_r : forall p s b,
  String.prefix p s = true -> String.prefix p (s ++ b) = true.
Proof.
  induction p as [|c p IH]; intros s b H.
  - apply prefix_empty.
  - destruct s as [|d s]; simpl in *; [discriminate H|].
    destruct (ascii_dec c d); [apply IH; exact H|discriminate H].
Qed.

Lemma includes_app_r : forall s p b,
  Str.includes s p = true -> Str.includes (s ++ b) p = true.
Proof.
  induction s as [|c s IH]; intros p b H; simpl in H.
  - rewrite orb_false_r in H. destruct p; [|discriminate H].
    destruct b; reflexivity.
  - simpl. apply orb_true_iff in H. apply orb_true_iff. destruct H as [H|H].
    + left. exact (@prefix_app_r p (String c s) b H).
    + right. apply IH. exact H.
Qed.

Lemma includes_app_l : forall a s p,
  Str.includes s p = true -> Str.includes (a ++ s) p = true.
Proof.
  induction a as [|c a IH]; intros s p H; [exact H|].
  simpl. apply orb_true_iff. right. apply IH. exact H.
Qed.

Lemma includes_app : forall a s b p,
  Str.includes s p = true -> Str.includes (a ++ s ++ b) p = true.
Proof. intros. apply includes_app_l, includes_app_r. assumption. Qed.

Lemma toLowerCase_app : forall a b,
  Str.toLowerCase (a ++ b) = Str.toLowerCase a ++ Str.toLowerCase b.
Proof.
  induction a as [|c a IH]; intro b; simpl; [reflexivity|].
  rewrite IH. reflexivity.
Qed.

Lemma substring_split : forall n s,
  (n <= String.length s)%nat ->
  s = String.substring 0 n s ++ String.substring n (String.length s - n) s.
Proof.
  induction n as [|n IH]; intros s H.
  - simpl. rewrite Nat.sub_0_r, substring_all. destruct s; reflexivity.
  - destruct s as [|c s]; simpl in *; [lia|].
    f_equal. apply IH. lia.
Qed.

Lemma endsWith_suffix : forall s p,
  Str.endsWith s p = true -> exists pre, s = pre ++ p.
Proof.
  intros s p H. unfold Str.endsWith in H.
  apply andb_true_iff in H. destruct H as [Hle Heq].
  apply Nat.leb_le in Hle. apply String.eqb_eq in Heq.
  unfold Str.slice in Heq.
  assert (Hn : (String.length s - String.length p <= String.length s)%nat) by lia.
  remember (String.length s - String.length p)%nat as n.
  exists (String.substring 0 n s).
  pose proof (@substring_split n s Hn) as Hs. rewrite Heq in Hs. exact Hs.
Qed.

Lemma endsWith_includes : forall s p q,
  Str.includes p q = true -> Str.endsWith s p = true -> Str.includes s q = true.
Proof.
  intros s p q Hq He. destruct (@endsWith_suffix _ _ He) as (pre & ->).
  apply includes_app_l. exact Hq.
Qed.

(** ** The test-file predicate *)

Lemma isTestFile_by_includes : forall p,
  isTestFile p
  = Str.includes (Str.toLowerCase p) "test"
    || Str.includes (Str.toLowerCase p) "spec".
Proof.
  intro p. unfold isTestFile.
  set (l := Str.toLowerCase p).
  destruct (Str.includes l "test") eqn:Et; [reflexivity|].
  destruct (Str.includes l "spec") eqn:Es; [reflexivity|].
  simpl.
  assert (T : forall q, Str.includes q "test" = true -> Str.endsWith l q = false).
  { intros q Hq. destruct (Str.endsWith l q) eqn:E; [|reflexivity].
    rewrite (@endsWith_includes l q "test" Hq E) in Et. discriminate Et. }
  assert (S : forall q, Str.includes q "spec" = true -> Str.endsWith l q = false).
  { intros q Hq. destruct (Str.endsWith l q) eqn:E; [|reflexivity].
    rewrite (@endsWith_includes l q "spec" Hq E) in Es. discriminate Es. }
  rewrite (T ".test.js" eq_refl), (S ".spec.js" eq_refl),
          (T ".test.ts" eq_refl), (S ".spec.ts" eq_refl),
          (T "_test.py" eq_refl), (T "_test.go" eq_refl).
  reflexivity.
Qed.

(** X1: [isTestFile] is decided by two substring tests alone: a path is
    a test file exactly when its lower-cased text contains "test" or
    "spec"; the six suffix tests of the source never change the answer. *)
Theorem X1_isTestFile_is_substring_test : forall p,
  isTestFile p
  = Str.includes (Str.toLowerCase p) "test"
    || Str.includes (Str.toLowerCase p) "spec".
Proof. exact isTestFile_by_includes. Qed.

(** X2: a path that contains a test-file path anywhere inside it is a
    test file, and therefore never a source file: once "test" or "spec"
    occurs in a directory name, every file below it is counted as an
    existing test and none as a testable component. *)
Theorem X2_test_marker_anywhere : forall a p b,
  isTestFile p = true ->
  isTestFile (a ++ p ++ b) = true /\ isSourceFile (a ++ p ++ b) = false.
Proof.
  intros a p b H.
  assert (Ht : isTestFile (a ++ p ++ b) = true).
  { rewrite isTestFile_by_includes in *. rewrite !toLowerCase_app.
    apply orb_true_iff in H. apply orb_true_iff.
    destruct H as [H|H]; [left|right]; apply includes_app; exact H. }
  split; [exact Ht|]. apply test_file_not_source. exact Ht.
Qed.

(** X2 at a project kept in a directory called "latest-build". *)
Lemma X2_witness :
  isTestFile ("/home/dev/la" ++ "test" ++ "-build/src/server.js") = true
  /\ isSourceFile ("/home/dev/la" ++ "test" ++ "-build/src/server.js") = false.
Proof.
  apply (@X2_test_marker_anywhere "/home/dev/la" "test" "-build/src/server.js").
  reflexivity.
Defined.

(** ** Function names without repetition *)

Lemma mem_In : forall x l, mem x l = true <-> In x l.
Proof.
  intros x l. unfold mem. rewrite existsb_exists. split.
  - intros (y & Hy & E). apply String.eqb_eq in E. subst y. exact Hy.
  - intro H. exists x. split; [exact H|apply String.eqb_refl].
Qed.

Lemma uniq_spec : forall l seen,
  NoDup (uniq seen l)
  /\ forall x, In x (uniq seen l) <-> In x l /\ ~ In x seen.
Proof.
  induction l as [|y l IH]; intro seen; simpl.
  - split; [constructor|]. intro x. tauto.
  - destruct (mem y seen) eqn:E.
    + apply mem_In in E. destruct (IH seen) as [Hn Hi]. split; [exact Hn|].
      intro x. rewrite Hi. split.
      * intros [H1 H2]. tauto.
      * intros [[H1|H1] H2]; [subst; contradiction|tauto].
    + assert (Hy : ~ In y seen).
      { intro H. apply mem_In in H. congruence. }
      destruct (IH (y :: seen)) as [Hn Hi]. split.
      * constructor; [|exact Hn]. rewrite Hi. simpl. tauto.
      * intro x. simpl. rewrite Hi. simpl. split.
        -- intros [H|[H1 H2]]; [subst; tauto|tauto].
        -- intros [[H|H] H2]; [tauto|].
           destruct (string_dec y x) as [->|N]; [tauto|]. right. tauto.
Qed.

(** X3: the names [extractJSFunctions] returns are pairwise distinct and
    are exactly the names the four patterns matched: [new Set] removes
    the repetitions and nothing else. *)
Theorem X3_extractJSFunctions_distinct : forall h code,
  NoDup (extractJSFunctions h code)
  /\ forall x, In x (extractJSFunctions h code) <-> In x (scanJSFunctions h code).
Proof.
  intros h code. unfold extractJSFunctions.
  destruct (uniq_spec (scanJSFunctions h code) []) as [Hn Hi].
  split; [exact Hn|]. intro x. rewrite Hi. simpl. tauto.
Qed.

(** ** The directory walk, continued *)

Lemma rbind_append_assoc : forall (r : Result (list string)) files out,
  rbind (rbind r (fun x => Ret (out ++ x)%list))
        (fun y => Ret (files ++ y)%list)
  = rbind r (fun x => Ret ((files ++ out) ++ x)%list).
Proof.
  intros [x|e] files out; simpl; [|reflexivity]. rewrite app_assoc. reflexivity.
Qed.

Lemma walk_appends : forall h n fullPath item files,
  visit h fullPath item n files
  = rbind (visit h fullPath item n []) (fun out => Ret (files ++ out)%list).
Proof.
  intros h n0. pattern n0.
  apply node_listing_ind
    with (Q := fun items =>
                 forall dir files,
                   getAllFilesIn h dir items files
                   = rbind (getAllFilesIn h dir items [])
                           (fun out => Ret (files ++ out)%list)).
  - intros text fullPath item files. reflexivity.
  - intros fullPath item files. simpl. rewrite app_nil_r. reflexivity.
  - intros fullPath item files. rewrite !visit_locked.
    destruct (descends item); simpl; [reflexivity|].
    rewrite app_nil_r. reflexivity.
  - intros fullPath item files. reflexivity.
  - intros items IH fullPath item files. rewrite !visit_dir.
    destruct (descends item); [apply IH|].
    simpl. rewrite app_nil_r. reflexivity.
  - intros dir files. simpl. rewrite app_nil_r. reflexivity.
  - intros item n rest IHn IHrest dir files.
    rewrite !getAllFilesIn_cons.
    rewrite (IHn (Path.join dir item) item files).
    destruct (visit h (Path.join dir item) item n []) as [out|e]; simpl;
      [|reflexivity].
    rewrite (IHrest dir (files ++ out)%list), (IHrest dir out).
    rewrite rbind_append_assoc. reflexivity.
Qed.

Lemma getAllFilesIn_appends : forall h items dir files,
  getAllFilesIn h dir items files
  = rbind (getAllFilesIn h dir items [])
          (fun out => Ret (files ++ out)%list).
Proof.
  intros h items. induction items as [|[item n] rest IH]; intros dir files.
  - simpl. rewrite app_nil_r. reflexivity.
  - rewrite !getAllFilesIn_cons.
    rewrite (walk_appends h n (Path.join dir item) item files).
    destruct (visit h (Path.join dir item) item n []) as [out|e]; simpl;
      [|reflexivity].
    rewrite (IH dir (files ++ out)%list), (IH dir out).
    rewrite rbind_append_assoc. reflexivity.
Qed.

Lemma getAllFilesIn_app : forall h items more dir files,
  getAllFilesIn h dir (items ++ more) files
  = rbind (getAllFilesIn h dir items files) (getAllFilesIn h dir more).
Proof.
  intros h items more dir. induction items as [|[item n] rest IH]; intro files.
  - reflexivity.
  - simpl. destruct (visit h (Path.join dir item) item n files); simpl;
      [apply IH|reflexivity].
Qed.

(** X4: [getAllFiles] only ever appends to the array it is given: a walk
    over a listing returns, after the entries already collected and in
    their order, what the same walk returns from the empty array, and it
    rejects exactly when that walk rejects, with the same error; the
    files of a listing are the files of its entries one after the other,
    in [readdir] order. *)
Theorem X4_getAllFiles_appends : forall h dir items more files,
  getAllFilesIn h dir items files
  = rbind (getAllFilesIn h dir items [])
          (fun out => Ret (files ++ out)%list)
  /\ getAllFilesIn h dir (items ++ more) []
     = rbind (getAllFilesIn h dir items []) (fun first =>
       rbind (getAllFilesIn h dir more []) (fun second =>
       Ret (first ++ second)%list)).
Proof.
  intros h dir items more files. split; [apply getAllFilesIn_appends|].
  rewrite getAllFilesIn_app.
  destruct (getAllFilesIn h dir items []) as [first|e]; simpl; [|reflexivity].
  apply getAllFilesIn_appends.
Qed.

(** ** What the analysis object holds *)

Lemma lookup_push_other : forall k k' xs o,
  k <> k' -> JS.lookup k' (push k xs o) = JS.lookup k' o.
Proof. intros. unfold push. apply lookup_set_other. assumption. Qed.

Lemma classify_arrays : forall h file o o',
  classify h file o = Ret o' ->
  arr "testableComponents" o'
  = (arr "testableComponents" o
     ++ map JStr (filter isSourceFile [file]))%list
  /\ arr "existingTests" o'
     = (arr "existingTests" o ++ map JStr (filter isTestFile [file]))%list
  /\ JS.lookup "language" o' = JS.lookup "language" o
  /\ JS.lookup "testFramework" o' = JS.lookup "testFramework" o.
Proof.
  intros h file o o' H. unfold classify in H.
  destruct (readFile h (JStr file)) as [content|e]; [|discriminate H].
  simpl in H. inversion H; subst o'; clear H. simpl.
  destruct (String.eqb (Path.extname file) ".js"
            || String.eqb (Path.extname file) ".ts");
    [|destruct (String.eqb (Path.extname file) ".py")];
    destruct (isSourceFile file); destruct (isTestFile file);
    repeat split;
    rewrite ?arr_push_same, ?arr_push_other, ?lookup_push_other by discriminate;
    rewrite ?arr_push_same, ?arr_push_other, ?lookup_push_other by discriminate;
    rewrite ?arr_push_same, ?arr_push_other, ?lookup_push_other by discriminate;
    simpl; rewrite ?app_nil_r; reflexivity.
Qed.

Lemma classifyAll_arrays : forall h files o o',
  classifyAll h files o = Ret o' ->
  arr "testableComponents" o'
  = (arr "testableComponents" o ++ map JStr (filter isSourceFile files))%list
  /\ arr "existingTests" o'
     = (arr "existingTests" o ++ map JStr (filter isTestFile files))%list
  /\ JS.lookup "language" o' = JS.lookup "language" o
  /\ JS.lookup "testFramework" o' = JS.lookup "testFramework" o.
Proof.
  intros h files. induction files as [|file rest IH]; intros o o' H.
  - simpl in H. inversion H; subst. simpl. rewrite !app_nil_r. auto.
  - simpl in H. destruct (classify h file o) as [o1|e] eqn:Hc; [|discriminate H].
    simpl in H.
    destruct (@classify_arrays h file o o1 Hc) as (A1 & A2 & A3 & A4).
    destruct (IH o1 o' H) as (B1 & B2 & B3 & B4).
    rewrite B1, B2, B3, B4, A1, A2, A3, A4.
    repeat split; rewrite <- app_assoc, <- map_app; f_equal; f_equal;
      simpl; [destruct (isSourceFile file)|destruct (isTestFile file)];
      reflexivity.
Qed.

(** X5: in the object [analyzeCodebase] serialises, [testableComponents]
    is the list of walked files that [isSourceFile] accepts and
    [existingTests] the list of walked files that [isTestFile] accepts,
    both in the order of the walk. *)
Theorem X5_analysis_lists_are_filters : forall h projectPath analysis,
  analyze h projectPath = Ret analysis ->
  exists files,
    getAllFiles h projectPath = Ret files
    /\ arr "testableComponents" analysis = map JStr (filter isSourceFile files)
    /\ arr "existingTests" analysis = map JStr (filter isTestFile files).
Proof.
  intros h projectPath analysis H. unfold analyze in H.
  destruct (getAllFiles h projectPath) as [files|e]; [|discriminate H].
  simpl in H. exists files. split; [reflexivity|].
  destruct (@classifyAll_arrays h files _ analysis H) as (A1 & A2 & _ & _).
  destruct (classified_start h projectPath) as [E1 E2].
  rewrite A1, A2, E1, E2. split; reflexivity.
Qed.

(** X5 at the demo project. *)
Lemma X5_witness :
  exists files,
    getAllFiles (Demo.host None) (JStr "proj") = Ret files
    /\ arr "testableComponents"
           [("language", JStr "javascript");
            ("apiEndpoints", JArr []);
            ("testableComponents", JArr [JStr "proj/src/app.js"]);
            ("existingTests", JArr [JStr "proj/src/app.test.js"]);
            ("testFramework", JStr "jest")]
       = map JStr (filter isSourceFile files)
    /\ arr "existingTests"
           [("language", JStr "javascript");
            ("apiEndpoints", JArr []);
            ("testableComponents", JArr [JStr "proj/src/app.js"]);
            ("existingTests", JArr [JStr "proj/src/app.test.js"]);
            ("testFramework", JStr "jest")]
       = map JStr (filter isTestFile files).
Proof.
  apply (@X5_analysis_lists_are_filters (Demo.host None) (JStr "proj")).
  vm_compute. reflexivity.
Defined.

(** ** Two detections of the test framework *)

Lemma detectPython_sets : forall h projectPath o,
  exists_in h projectPath "requirements.txt" = true ->
  JS.lookup "language" (detectPython h projectPath o) = Some (JStr "python")
  /\ JS.lookup "testFramework" (detectPython h projectPath o)
     = Some (JStr "pytest").
Proof.
  intros h projectPath o H. unfold detectPython. rewrite H. split.
  - rewrite lookup_set_other by discriminate. apply lookup_set_same.
  - apply lookup_set_same.
Qed.

(** X6: when a project holds a requirements.txt, the analysis reports
    [language: python] and [testFramework: pytest] whatever its
    package.json declares; yet when that package.json declares jest,
    [detectTestFramework], which [runTests] consults, answers "jest" for
    the same project. *)
Theorem X6_detections_disagree : forall h projectPath analysis deps,
  analyze h projectPath = Ret analysis ->
  exists_in h projectPath "requirements.txt" = true ->
  rbind (readPackageJson h projectPath) (depsOf h) = Ret deps ->
  has deps "jest" = true ->
  JS.lookup "language" analysis = Some (JStr "python")
  /\ JS.lookup "testFramework" analysis = Some (JStr "pytest")
  /\ detectTestFramework h projectPath = "jest".
Proof.
  intros h projectPath analysis deps Ha Hr Hd Hj.
  unfold analyze in Ha.
  destruct (getAllFiles h projectPath) as [files|e]; [|discriminate Ha].
  simpl in Ha.
  destruct (@classifyAll_arrays h files _ analysis Ha) as (_ & _ & L & T).
  destruct (@detectPython_sets h projectPath
              (detectNode h projectPath analysis0) Hr) as [L0 T0].
  rewrite L, T, L0, T0. repeat split.
  unfold detectTestFramework. rewrite Hd, Hj. reflexivity.
Qed.

(** X6 at a project with a requirements.txt and a package.json that
    declares jest. *)
Lemma X6_witness :
  JS.lookup "language"
    [("language", JStr "python"); ("apiEndpoints", JArr []);
     ("testableComponents", JArr [JStr "mixed/app.py"]);
     ("existingTests", JArr []);
     ("testFramework", JStr "pytest"); ("framework", JStr "react")]
  = Some (JStr "python")
  /\ JS.lookup "testFramework"
       [("language", JStr "python"); ("apiEndpoints", JArr []);
        ("testableComponents", JArr [JStr "mixed/app.py"]);
        ("existingTests", JArr []);
        ("testFramework", JStr "pytest"); ("framework", JStr "react")]
     = Some (JStr "pytest")
  /\ detectTestFramework Sample.host (JStr "mixed") = "jest".
Proof.
  apply (@X6_detections_disagree Sample.host (JStr "mixed") _
           [("react", JStr "^18.0.0"); ("jest", JStr "^29.0.0")]);
    vm_compute; reflexivity.
Defined.

(** X7: [detectTestFramework] always answers with one of five names,
    and answers "jest" when the project path is not a string. *)
Theorem X7_detectTestFramework_range : forall h projectPath,
  In (detectTestFramework h projectPath)
     ["jest"; "mocha"; "vitest"; "pytest"; "go"]
  /\ ((forall s, projectPath <> JStr s) ->
      detectTestFramework h projectPath = "jest").
Proof.
  intros h projectPath. split.
  - unfold detectTestFramework.
    destruct (rbind (readPackageJson h projectPath) (depsOf h)) as [deps|e].
    + destruct (has deps "jest"); [simpl; tauto|].
      destruct (has deps "mocha"); [simpl; tauto|].
      destruct (has deps "vitest"); [simpl; tauto|].
      destruct (exists_in h projectPath "requirements.txt"); [simpl; tauto|].
      destruct (exists_in h projectPath "go.mod"); simpl; tauto.
    + destruct (exists_in h projectPath "requirements.txt"); [simpl; tauto|].
      destruct (exists_in h projectPath "go.mod"); simpl; tauto.
  - intro Hn. destruct projectPath; try reflexivity.
    exfalso. exact (Hn s eq_refl).
Qed.

(** X8: when the framework in force (the one given, or else the one
    detected) is none of jest, pytest and go, [runTests] starts no
    subprocess and returns the single text block that serialises
    [{ success: false, output: '', errors: <message> }], the message
    being "Unsupported test framework: <name>" with the name converted as
    a template literal converts it, or the runtime's TypeError message
    when that conversion throws; in particular a project whose
    package.json declares mocha or vitest, but not jest, cannot be run by
    auto-detection. *)
Theorem X8_unsupported_framework : forall h projectPath testPattern framework,
  let inForce :=
    if JS.truthy framework then framework
    else JStr (detectTestFramework h projectPath) in
  JS.is_str inForce "jest" = false ->
  JS.is_str inForce "pytest" = false ->
  JS.is_str inForce "go" = false ->
  runTests h projectPath testPattern framework
  = ([Call "runTests" [projectPath; testPattern; framework]],
     Ret {| content :=
              [ {| type := "text";
                   text :=
                     Json.stringify2
                       (JObj [("success", JBool false);
                              ("output", JStr "");
                              ("errors",
                               JStr (if JS.converts inForce
                                     then "Unsupported test framework: "
                                          ++ JS.toStr inForce
                                     else message_of h (NotPrimitive inForce)))])
                |} ] |}).
Proof.
  intros h projectPath testPattern framework inForce H1 H2 H3.
  unfold runTests, commandLine, testCommand.
  destruct (JS.truthy framework); simpl negb; cbv iota;
    fold inForce; subst inForce; rewrite H1, H2, H3; unfold template;
    match goal with
    | |- context [JS.converts ?v] => destruct (JS.converts v)
    end; reflexivity.
Qed.

(** The framework name is converted as a template literal converts it. *)
Example unsupported_framework_names : forall h,
  outcome (runTests h (JStr "p") JUndef (JNum (10 ^ 21)))
  = Ret (failedRun "Unsupported test framework: 1e+21")
  /\ outcome (runTests h (JStr "p") JUndef (JObj [("toString", JNull)]))
     = Ret (failedRun (message_of h (NotPrimitive (JObj [("toString", JNull)])))).
Proof. intro h. split; reflexivity. Qed.

(** X8 at a project whose package.json declares mocha. *)
Lemma X8_witness :
  runTests Sample.host (JStr "mocha") JUndef JUndef
  = ([Call "runTests" [JStr "mocha"; JUndef; JUndef]],
     Ret (failedRun "Unsupported test framework: mocha")).
Proof.
  apply (@X8_unsupported_framework Sample.host (JStr "mocha") JUndef JUndef);
    reflexivity.
Defined.

(** ** Errors of the handlers and where they surface *)

Lemma analyzeCodebase_cases : forall h projectPath,
  analyzeCodebase h projectPath
  = match analyze h projectPath with
    | Ret analysis =>
        ([Call "analyzeCodebase" [projectPath]],
         Ret (textResult (Json.stringify2 (JObj analysis))))
    | Throw e =>
        ([Call "analyzeCodebase" [projectPath]],
         Throw ("Failed to analyze codebase: " ++ e))
    end.
Proof.
  intros h projectPath. unfold analyzeCodebase.
  destruct (analyze h projectPath); reflexivity.
Qed.

Lemma generateUnitTests_cases : forall h filePath functionName testFramework,
  exists r,
    generateUnitTests h filePath functionName testFramework
    = ([Call "generateUnitTests" [filePath; functionName; testFramework]],
       match r with
       | Ret t => Ret (textResult t)
       | Throw e => Throw ("Failed to generate unit tests: " ++ e)
       end).
Proof.
  intros h filePath functionName testFramework. unfold generateUnitTests.
  destruct (readFile h filePath) as [code|e].
  - rewrite bind_lift_ret.
    destruct (String.eqb _ ".js" || String.eqb _ ".ts").
    + destruct (generateJSUnitTests h code functionName
                  (JS.or testFramework (JStr "jest"))) as [t|e] eqn:E.
      * exists (Ret t). reflexivity.
      * exists (Throw e). reflexivity.
    + destruct (String.eqb _ ".py").
      * destruct (generatePythonUnitTests h code functionName
                    (JS.or testFramework (JStr "pytest"))) as [t|e] eqn:E.
        -- exists (Ret t). reflexivity.
        -- exists (Throw e). reflexivity.
      * eexists (Throw _). reflexivity.
  - exists (Throw e). reflexivity.
Qed.

(** X9: every exception that leaves [analyzeCodebase] carries a message
    that starts with "Failed to analyze codebase: ", every exception that
    leaves [generateUnitTests] one that starts with "Failed to generate
    unit tests: "; in both cases the handler was entered and nothing else
    was logged. *)
Theorem X9_handler_errors_are_wrapped :
  (forall h projectPath log e,
     analyzeCodebase h projectPath = (log, Throw e) ->
     log = [Call "analyzeCodebase" [projectPath]]
     /\ Str.startsWith e "Failed to analyze codebase: " = true)
  /\ (forall h filePath functionName testFramework log e,
        generateUnitTests h filePath functionName testFramework = (log, Throw e) ->
        log = [Call "generateUnitTests" [filePath; functionName; testFramework]]
        /\ Str.startsWith e "Failed to generate unit tests: " = true).
Proof.
  split.
  - intros h projectPath log e H. rewrite analyzeCodebase_cases in H.
    destruct (analyze h projectPath) as [a|m]; inversion H; subst.
    split; [reflexivity|].
    exact (prefix_app "Failed to analyze codebase: " m).
  - intros h filePath functionName testFramework log e H.
    destruct (generateUnitTests_cases h filePath functionName testFramework)
      as (r & Hr).
    rewrite Hr in H. destruct r as [t|m]; inversion H; subst.
    split; [reflexivity|].
    exact (prefix_app "Failed to generate unit tests: " m).
Qed.

Lemma http_call_reply_throw_log : forall h req n args log e,
  isToolCall h req n args ->
  httpCall h n args = (log, Throw e) ->
  handleHTTP h req
  = (log, Ret {| status := 500; headers := jsonHeaders;
                 payload := RpcError (-32000) e JNull |}).
Proof.
  intros h req n args log e Hcall He.
  destruct (rpcResult_call Hcall) as (request & Hpost & _ & Hrpc).
  rewrite (handleHTTP_post Hpost), Hrpc, He.
  unfold bind, try_catch, ret. simpl. rewrite app_nil_r. reflexivity.
Qed.

(** X10: asking [analyze_codebase] for a path that is not a directory
    fails in [getAllFiles]; the standard-stream path reports it as a text
    result "Error executing analyze_codebase: Failed to analyze codebase:
    <message>", the HTTP path as an error reply with status 500 and the
    message "Failed to analyze codebase: <message>". *)
Theorem X10_analysis_of_a_non_directory : forall h args root,
  JS.truthy args = true ->
  arg h args "projectPath" = JStr root ->
  (forall items, fs_at h root <> Some (Dir items)) ->
  let message := message_of h (FsError "readdir" (JStr root)) in
  getAllFiles h (JStr root) = Throw message
  /\ stdioCall h (JStr "analyze_codebase") args
     = ([Call "analyzeCodebase" [JStr root]],
        Success (textResult
                   ("Error executing analyze_codebase: "
                    ++ "Failed to analyze codebase: " ++ message)))
  /\ (forall req,
        isToolCall h req (JStr "analyze_codebase") args ->
        handleHTTP h req
        = ([Call "analyzeCodebase" [JStr root]],
           Ret {| status := 500; headers := jsonHeaders;
                  payload := RpcError (-32000)
                               ("Failed to analyze codebase: " ++ message)
                               JNull |})).
Proof.
  intros h args root Ha Hp Hfs message.
  assert (Hg : getAllFiles h (JStr root) = Throw message).
  { unfold getAllFiles, readdir.
    destruct (fs_at h root) as [[text|items| | |]|] eqn:E; try reflexivity.
    exfalso. exact (Hfs items eq_refl). }
  assert (Hc : analyzeCodebase h (JStr root)
               = ([Call "analyzeCodebase" [JStr root]],
                  Throw ("Failed to analyze codebase: " ++ message))).
  { rewrite analyzeCodebase_cases. unfold analyze. rewrite Hg. reflexivity. }
  split; [exact Hg|]. split.
  - unfold stdioCall, callToolHandler. rewrite Ha.
    cbn [negb JS.is_str String.eqb Ascii.eqb Bool.eqb]. rewrite Hp, Hc.
    reflexivity.
  - intros req Hcall. apply (@http_call_reply_throw_log h req _ args _ _ Hcall).
    unfold httpCall. rewrite Ha.
    cbn [negb JS.is_str String.eqb Ascii.eqb Bool.eqb]. rewrite Hp. exact Hc.
Qed.

(** X10 at a path that names a plain file. *)
Lemma X10_witness :
  getAllFiles Sample.host (JStr "notes.txt") = Throw "readdir failed"
  /\ stdioCall Sample.host (JStr "analyze_codebase") (Demo.projArgs "notes.txt")
     = ([Call "analyzeCodebase" [JStr "notes.txt"]],
        Success (textResult
                   ("Error executing analyze_codebase: "
                    ++ "Failed to analyze codebase: " ++ "readdir failed")))
  /\ (forall req,
        isToolCall Sample.host req (JStr "analyze_codebase")
                   (Demo.projArgs "notes.txt") ->
        handleHTTP Sample.host req
        = ([Call "analyzeCodebase" [JStr "notes.txt"]],
           Ret {| status := 500; headers := jsonHeaders;
                  payload := RpcError (-32000)
                               ("Failed to analyze codebase: " ++ "readdir failed")
                               JNull |})).
Proof.
  apply (@X10_analysis_of_a_non_directory Sample.host
           (Demo.projArgs "notes.txt") "notes.txt");
    [reflexivity | reflexivity |].
  intros items H. discriminate H.
Defined.

(** X11: the only exception that leaves the standard-stream call handler
    is "Missing arguments", raised before any tool handler runs when
    [arguments] is falsy; with arguments present every error is returned
    as a text result. *)
Theorem X11_stdio_handler_throws_only_for_missing_arguments :
  forall h n args log e,
    callToolHandler h n args = (log, Throw e) ->
    e = "Missing arguments" /\ log = [] /\ JS.truthy args = false.
Proof.
  intros h n args log e H. unfold callToolHandler in H.
  destruct (JS.truthy args); simpl negb in H; cbv iota in H.
  - exfalso.
    match type of H with
    | try_catch ?m ?hd = _ => destruct m as [l [r|e']]
    end; simpl in H; discriminate H.
  - inversion H. auto.
Qed.

(** X11 at a call without arguments. *)
Lemma X11_witness :
  "Missing arguments" = "Missing arguments"
  /\ @nil Event = [] /\ JS.truthy JNull = false.
Proof.
  apply (@X11_stdio_handler_throws_only_for_missing_arguments
           (Demo.host None) (JStr "run_tests") JNull [] "Missing arguments").
  reflexivity.
Defined.

(** ** The HTTP adapter as a whole *)

Lemma respond_shape : forall h text log resp,
  respond h text = (log, Ret resp) ->
  status resp = 200%nat /\ headers resp = jsonHeaders.
Proof.
  intros h text log resp H. unfold respond in H.
  apply bind_inv in H. destruct H as (request & l1 & l2 & _ & H & _).
  apply bind_inv in H. destruct H as (result & l3 & l4 & _ & H & _).
  apply bind_inv in H. destruct H as (id & l5 & l6 & _ & H & _).
  inversion H. split; reflexivity.
Qed.

(** X12: the request listener never throws: whatever the request, it
    produces a response, that response starts with the three CORS
    headers, and its status is one of 200, 401, 404 and 500. *)
Theorem X12_every_request_is_answered : forall h req,
  exists log resp,
    handleHTTP h req = (log, Ret resp)
    /\ firstn 3 (headers resp) = corsHeaders
    /\ In (status resp) [200; 401; 404; 500]%nat.
Proof.
  intros h req. unfold handleHTTP.
  destruct (String.eqb (method req) "OPTIONS").
  { do 2 eexists. split; [reflexivity|]. simpl. tauto. }
  destruct (String.eqb (method req) "POST" && isMcpUrl (url req)).
  { destruct (respond h (body req)) as [l [r|e]] eqn:Hr.
    - destruct (respond_shape _ _ Hr) as [Hs Hh].
      exists l, r. split; [reflexivity|]. rewrite Hs, Hh. simpl. tauto.
    - do 2 eexists. split; [reflexivity|]. simpl. tauto. }
  repeat match goal with
         | |- context [if ?c then _ else _] => destruct c
         end;
    do 2 eexists; (split; [reflexivity|]); simpl; tauto.
Qed.

(** X13: a reply with status 200 to a JSON-RPC request whose [id] is
    truthy carries that [id]. *)
Theorem X13_success_reply_echoes_id : forall h req request id log resp,
  postsRpc h req request ->
  prop h request "id" = Ret id ->
  JS.truthy id = true ->
  handleHTTP h req = (log, Ret resp) ->
  status resp = 200%nat ->
  responseId resp = Some id.
Proof.
  intros h req request id log resp Hpost Hid Ht H Hs.
  rewrite (handleHTTP_post Hpost) in H.
  destruct (rpcResult h request) as [l [res|e]].
  - rewrite Hid in H. unfold bind, lift, ret, try_catch in H. simpl in H.
    inversion H; subst resp. simpl. unfold JS.or. rewrite Ht. reflexivity.
  - simpl in H. inversion H; subst resp. discriminate Hs.
Qed.

(** X13 at a discovery request with [id: 1]. *)
Lemma X13_witness :
  responseId
    {| status := 200; headers := jsonHeaders;
       payload := RpcResponse (ToolsResult httpTools) (JNum 1) |}
  = Some (JNum 1).
Proof.
  apply (@X13_success_reply_echoes_id (Demo.host None)
           (Demo.post (Demo.rpc "tools/list" JUndef (JNum 1)))
           (Demo.rpc "tools/list" JUndef (JNum 1)) (JNum 1) []);
    try reflexivity.
  repeat split; reflexivity.
Defined.

(** X14: a JSON-RPC request whose [method] is none of initialize,
    tools/list, tools/call, ping and initialized (or is not a string at
    all) is answered with status 500, code -32000 and the message
    "Unsupported method: <method>", the method converted as a template
    literal converts it, or with the runtime's TypeError message when
    that conversion throws; no handler runs. *)
Theorem X14_unsupported_method : forall h req request m,
  postsRpc h req request ->
  prop h request "method" = Ret m ->
  existsb (JS.is_str m)
          ["initialize"; "tools/list"; "tools/call"; "ping"; "initialized"]
  = false ->
  handleHTTP h req
  = ([], Ret {| status := 500; headers := jsonHeaders;
                payload :=
                  RpcError (-32000)
                    (if JS.converts m then "Unsupported method: " ++ JS.toStr m
                     else message_of h (NotPrimitive m))
                    JNull |}).
Proof.
  intros h req request m Hpost Hm Hn.
  rewrite (handleHTTP_post Hpost). unfold rpcResult.
  rewrite Hm, bind_lift_ret. simpl in Hn.
  repeat (apply orb_false_iff in Hn; destruct Hn as [?H Hn]).
  rewrite H, H0, H1, H2, H3. unfold template.
  destruct (JS.converts m); reflexivity.
Qed.

(** X14 at a request for [resources/list] and at a body that is the
    number 42. *)
Lemma X14_witness :
  handleHTTP Sample.host (Demo.post Sample.resourcesList)
  = ([], Ret {| status := 500; headers := jsonHeaders;
                payload := RpcError (-32000)
                             ("Unsupported method: " ++ "resources/list")
                             JNull |})
  /\ handleHTTP Sample.host
       {| method := "POST"; url := Some "/"; authorization := None;
          body := "42" |}
     = ([], Ret {| status := 500; headers := jsonHeaders;
                   payload := RpcError (-32000)
                                ("Unsupported method: " ++ "undefined")
                                JNull |}).
Proof.
  split.
  - apply (@X14_unsupported_method Sample.host _ Sample.resourcesList
             (JStr "resources/list"));
      [repeat split; reflexivity | reflexivity | reflexivity].
  - apply (@X14_unsupported_method Sample.host _ (JNum 42) JUndef);
      [repeat split; reflexivity | reflexivity | reflexivity].
Defined.

(** X15: a POST to the MCP endpoint whose body is not JSON is answered
    with status 500, code -32000, the parser's message and [id: null];
    no handler runs. *)
Theorem X15_malformed_body : forall h req,
  method req = "POST" ->
  isMcpUrl (url req) = true ->
  JSON_parse h (body req) = None ->
  handleHTTP h req
  = ([], Ret {| status := 500; headers := jsonHeaders;
                payload := RpcError (-32000)
                             (message_of h (SyntaxErrorJSON (body req)))
                             JNull |}).
Proof.
  intros h req Hm Hu Hp. unfold handleHTTP. rewrite Hm, Hu.
  cbn [String.eqb Ascii.eqb Bool.eqb andb].
  unfold respond, parse. rewrite Hp. reflexivity.
Qed.

(** X15 at a truncated body. *)
Lemma X15_witness :
  handleHTTP (Demo.host None)
    {| method := "POST"; url := Some "/api/mcp"; authorization := None;
       body := "{ not json" |}
  = ([], Ret {| status := 500; headers := jsonHeaders;
                payload := RpcError (-32000)
                             (message_of (Demo.host None)
                                (SyntaxErrorJSON "{ not json"))
                             JNull |}).
Proof.
  apply (@X15_malformed_body (Demo.host None)
           {| method := "POST"; url := Some "/api/mcp"; authorization := None;
              body := "{ not json" |});
    reflexivity.
Defined.

(** X16: a POST to "/auth" is answered from the Authorization header
    alone: status 200 with [authenticated: true] when
    [authenticateRequest] accepts it, status 401 with [authenticated:
    false] otherwise; the body is not read and no handler runs. *)
Theorem X16_auth_endpoint : forall h req,
  method req = "POST" ->
  url req = Some "/auth" ->
  handleHTTP h req
  = ([], Ret (if authenticateRequest h req
              then {| status := 200; headers := jsonHeaders;
                      payload := AuthReply true "API key is valid" |}
              else {| status := 401; headers := jsonHeaders;
                      payload := AuthReply false "Invalid or missing API key" |})).
Proof.
  intros h req Hm Hu. unfold handleHTTP. rewrite Hm, Hu.
  cbn. destruct (authenticateRequest h req); reflexivity.
Qed.

(** X16 at a request without credentials. *)
Lemma X16_witness :
  handleHTTP (Demo.host (Some "s3cret"))
    {| method := "POST"; url := Some "/auth"; authorization := None;
       body := "ignored" |}
  = ([], Ret {| status := 401; headers := jsonHeaders;
                payload := AuthReply false "Invalid or missing API key" |}).
Proof.
  apply (@X16_auth_endpoint (Demo.host (Some "s3cret"))
           {| method := "POST"; url := Some "/auth"; authorization := None;
              body := "ignored" |});
    reflexivity.
Defined.

(** ** The two dispatchers side by side *)

(** X17: whatever the HTTP dispatcher returns for a call, the
    standard-stream dispatcher returns for the same call, with the same
    events; and an error that the HTTP dispatcher raises from one of its
    three tools comes back on the standard-stream path as the text
    "Error executing <name>: <message>", again with the same events. *)
Theorem X17_dispatchers_agree : forall h n args log,
  (forall r,
     httpCall h n args = (log, Ret r) ->
     callToolHandler h n args = (log, Ret r))
  /\ (forall e,
        knownTo httpTools n = true ->
        JS.truthy args = true ->
        httpCall h n args = (log, Throw e) ->
        callToolHandler h n args
        = (log, Ret (textResult ("Error executing " ++ JS.toStr n ++ ": " ++ e)))).
Proof.
  intros h n args log.
  unfold httpCall, callToolHandler.
  destruct (JS.truthy args); simpl negb; cbv iota.
  2:{ split; [intros r H; discriminate H|intros e _ H; discriminate H]. }
  destruct n as [| |b|z|s|items|props];
    try (split;
         [intros r H; cbn [JS.is_str] in H; unfold template in H;
          destruct (JS.converts _); discriminate H
         |intros e H; discriminate H]).
  cbn [JS.is_str JS.toStr].
  destruct (String.eqb s "analyze_codebase") eqn:E1.
  { split; [intros r H|intros e _ _ H]; rewrite H; simpl.
    - reflexivity.
    - rewrite app_nil_r. reflexivity. }
  destruct (String.eqb s "generate_unit_tests") eqn:E2.
  { split; [intros r H|intros e _ _ H]; rewrite H; simpl.
    - reflexivity.
    - rewrite app_nil_r. reflexivity. }
  destruct (String.eqb s "run_tests") eqn:E3.
  { apply String.eqb_eq in E3. subst s.
    cbn [String.eqb Ascii.eqb Bool.eqb].
    split; [intros r H|intros e _ _ H]; rewrite H; simpl.
    - reflexivity.
    - rewrite app_nil_r. reflexivity. }
  split; [intros r H; unfold template in H;
          destruct (JS.converts _); discriminate H|].
  intros e Hk. unfold knownTo in Hk. simpl in Hk.
  rewrite E1, E2, E3 in Hk. discriminate Hk.
Qed.

(** ** Subprocesses *)

Lemma runTests_log : forall h projectPath testPattern framework,
  let called := Call "runTests" [projectPath; testPattern; framework] in
  exists command,
    events (runTests h projectPath testPattern framework) = [called]
    \/ events (runTests h projectPath testPattern framework)
       = [called; Spawn command projectPath testTimeout]
    \/ events (runTests h projectPath testPattern framework)
       = [called; Spawn command projectPath testTimeout;
          Kill command "SIGTERM"].
Proof.
  intros h projectPath testPattern framework called.
  destruct (commandLine h projectPath testPattern framework) as [c|e] eqn:Hc.
  - exists c. rewrite (@runTests_run h _ _ _ c Hc).
    destruct (spawn h c projectPath) as [m|after code out err|after err| |];
      simpl; auto.
    + destruct (after <=? Npos testTimeout)%N;
        [destruct (code =? 0)%Z|]; simpl; auto.
    + destruct (after <=? Npos testTimeout)%N; simpl; auto.
  - exists "". left. unfold runTests. rewrite Hc. reflexivity.
Qed.

Lemma try_catch_text_events : forall (m : M ToolCallResult) f,
  events (try_catch m (fun e => ret (f e))) = events m.
Proof.
  intros [log [r|e]] f; simpl; [reflexivity|]. apply app_nil_r.
Qed.

(** X18: a call through the standard-stream dispatcher logs at most the
    entry of one tool handler, followed for [run_tests] alone by the start
    of at most one subprocess, followed at most by one SIGTERM sent to
    that same subprocess: no other tool starts a process, and nothing is
    signalled that was not started by the same call. *)
Theorem X18_one_subprocess_per_call : forall h n args,
  exists calls,
    (calls = [] \/ exists m a, calls = [Call m a])
    /\ (events (callToolHandler h n args) = calls
        \/ (n = JStr "run_tests"
            /\ exists command cwd,
                 events (callToolHandler h n args)
                 = (calls ++ [Spawn command cwd testTimeout])%list
                 \/ events (callToolHandler h n args)
                    = (calls ++ [Spawn command cwd testTimeout;
                                 Kill command "SIGTERM"])%list)).
Proof.
  intros h n args. unfold callToolHandler.
  destruct (JS.truthy args); simpl negb; cbv iota.
  2:{ exists []. split; [left; reflexivity|left; reflexivity]. }
  rewrite try_catch_text_events.
  destruct (JS.is_str n "analyze_codebase").
  { rewrite analyzeCodebase_cases. eexists [_]. split; [right; eauto|].
    left. destruct (analyze h _); reflexivity. }
  destruct (JS.is_str n "generate_unit_tests").
  { destruct (generateUnitTests_cases h (arg h args "filePath")
                (arg h args "functionName") (arg h args "testFramework"))
      as (r & Hr).
    rewrite Hr. eexists [_]. split; [right; eauto|]. left. reflexivity. }
  destruct (JS.is_str n "generate_integration_tests").
  { eexists [_]. split; [right; eauto|]. left. reflexivity. }
  destruct (JS.is_str n "run_tests") eqn:E.
  { assert (n = JStr "run_tests") as ->.
    { destruct n; simpl in E; try discriminate E.
      apply String.eqb_eq in E. subst. reflexivity. }
    destruct (runTests_log h (arg h args "projectPath")
                (arg h args "testPattern") (arg h args "framework"))
      as (command & [H|[H|H]]);
      eexists [_]; (split; [right; eauto|]).
    - left. exact H.
    - right. split; [reflexivity|]. exists command, (arg h args "projectPath").
      left. exact H.
    - right. split; [reflexivity|]. exists command, (arg h args "projectPath").
      right. exact H. }
  destruct (JS.is_str n "analyze_test_results").
  { eexists [_]. split; [right; eauto|]. left. reflexivity. }
  destruct (JS.is_str n "suggest_fixes").
  { eexists [_]. split; [right; eauto|]. left. reflexivity. }
  destruct (JS.is_str n "setup_testing_framework").
  { eexists [_]. split; [right; eauto|]. left. reflexivity. }
  exists []. split; [left; reflexivity|left; reflexivity].
Qed.

(** ** Generation of unit tests *)

(** X19: for a readable .js or .ts file and a requested test framework
    other than jest, [generateUnitTests] succeeds with an empty text:
    only the jest template exists. *)
Theorem X19_only_jest_is_generated :
  forall h p code functionName testFramework,
    readFile h (JStr p) = Ret code ->
    Path.extname p = ".js" \/ Path.extname p = ".ts" ->
    JS.truthy testFramework = true ->
    JS.is_str testFramework "jest" = false ->
    generateUnitTests h (JStr p) functionName testFramework
    = ([Call "generateUnitTests" [JStr p; functionName; testFramework]],
       Ret (textResult "")).
Proof.
  intros h p code functionName testFramework Hr He Ht Hj.
  unfold generateUnitTests. rewrite Hr, bind_lift_ret.
  assert (E : String.eqb (Path.extname p) ".js"
              || String.eqb (Path.extname p) ".ts" = true).
  { destruct He as [-> | ->]; reflexivity. }
  rewrite E. unfold generateJSUnitTests, JS.or. rewrite Ht, Hj. reflexivity.
Qed.

(** X19 at a request for mocha tests of a JavaScript file. *)
Lemma X19_witness :
  generateUnitTests Sample.host (JStr "lib.js") JUndef (JStr "mocha")
  = ([Call "generateUnitTests" [JStr "lib.js"; JUndef; JStr "mocha"]],
     Ret (textResult "")).
Proof.
  apply (@X19_only_jest_is_generated Sample.host "lib.js" "function f() {}");
    try reflexivity.
  left. reflexivity.
Defined.

(** X20: for a readable file whose extension is none of .js, .ts and
    .py, [generateUnitTests] throws "Failed to generate unit tests:
    Unsupported file type: <extension>", which the standard-stream
    dispatcher returns as the text "Error executing generate_unit_tests:
    ..." of a Success envelope. *)
Theorem X20_unsupported_file_type : forall h args p code,
  JS.truthy args = true ->
  arg h args "filePath" = JStr p ->
  readFile h (JStr p) = Ret code ->
  Path.extname p <> ".js" ->
  Path.extname p <> ".ts" ->
  Path.extname p <> ".py" ->
  let message :=
    "Failed to generate unit tests: Unsupported file type: " ++ Path.extname p in
  outcome (generateUnitTests h (JStr p) (arg h args "functionName")
                             (arg h args "testFramework"))
  = Throw message
  /\ snd (stdioCall h (JStr "generate_unit_tests") args)
     = Success (textResult ("Error executing generate_unit_tests: " ++ message)).
Proof.
  intros h args p code Ha Hp Hr H1 H2 H3 message.
  apply String.eqb_neq in H1, H2, H3.
  assert (Hg : generateUnitTests h (JStr p) (arg h args "functionName")
                                 (arg h args "testFramework")
               = ([Call "generateUnitTests"
                        [JStr p; arg h args "functionName";
                         arg h args "testFramework"]],
                  Throw message)).
  { unfold generateUnitTests. rewrite Hr, bind_lift_ret, H1, H2, H3.
    reflexivity. }
  split; [rewrite Hg; reflexivity|].
  unfold stdioCall, callToolHandler. rewrite Ha.
  cbn [negb JS.is_str String.eqb Ascii.eqb Bool.eqb]. rewrite Hp, Hg.
  reflexivity.
Qed.

(** X20 at a text file. *)
Lemma X20_witness :
  outcome (generateUnitTests Sample.host (JStr "notes.txt") JUndef JUndef)
  = Throw ("Failed to generate unit tests: Unsupported file type: " ++ ".txt")
  /\ snd (stdioCall Sample.host (JStr "generate_unit_tests")
            (JObj [("filePath", JStr "notes.txt")]))
     = Success (textResult
                  ("Error executing generate_unit_tests: "
                   ++ "Failed to generate unit tests: Unsupported file type: "
                   ++ ".txt")).
Proof.
  apply (@X20_unsupported_file_type Sample.host
           (JObj [("filePath", JStr "notes.txt")]) "notes.txt" "remember");
    try reflexivity; intro H; discriminate H.
Defined.

(** ** More of the HTTP adapter *)

(** X21: the configured key always authenticates when it is sent as
    "Bearer <key>", and also when it is sent bare unless the key itself
    starts with "Bearer "; a request that authenticates always carries a
    non-empty token. *)
Theorem X21_configured_key_is_accepted : forall h req,
  authenticateRequest h
    (withAuthorization (Some ("Bearer " ++ apiKey h)) req) = true
  /\ (Str.startsWith (apiKey h) "Bearer " = false ->
      authenticateRequest h (withAuthorization (Some (apiKey h)) req) = true)
  /\ (authenticateRequest h req = true ->
      exists a, authorization req = Some a /\ bearerToken a <> "").
Proof.
  intros h req. repeat apply conj.
  - unfold authenticateRequest, withAuthorization. cbn [authorization].
    replace (String.eqb ("Bearer " ++ apiKey h) "") with false by reflexivity.
    rewrite bearerToken_strips. apply String.eqb_refl.
  - intro Hs. unfold authenticateRequest, withAuthorization.
    cbn [authorization].
    destruct (String.eqb (apiKey h) "") eqn:E.
    + apply String.eqb_eq in E. exfalso. exact (@apiKey_nonempty h E).
    + unfold bearerToken. rewrite Hs. apply String.eqb_refl.
  - unfold authenticateRequest.
    destruct (authorization req) as [a|]; [|discriminate].
    destruct (String.eqb a ""); [discriminate|].
    intro H. apply String.eqb_eq in H. exists a. split; [reflexivity|].
    rewrite H. apply apiKey_nonempty.
Qed.

(** X22: a request that is neither OPTIONS nor GET, and is not a POST
    to the MCP endpoint or to "/auth", is answered 404 "Not found"; no
    body is parsed and no handler runs. *)
Theorem X22_everything_else_is_not_found : forall h req,
  method req <> "OPTIONS" ->
  method req <> "GET" ->
  (method req = "POST" -> isMcpUrl (url req) = false /\ url req <> Some "/auth") ->
  handleHTTP h req
  = ([], Ret {| status := 404; headers := jsonHeaders; payload := NotFound |}).
Proof.
  intros h req Ho Hg Hp. unfold handleHTTP.
  apply String.eqb_neq in Ho, Hg. rewrite Ho, Hg.
  destruct (String.eqb (method req) "POST") eqn:E; [|reflexivity].
  apply String.eqb_eq in E. destruct (Hp E) as [Hu Ha]. rewrite Hu. simpl.
  destruct (url req) as [u|]; [|reflexivity].
  destruct (String.eqb u "/auth") eqn:Eu; [|reflexivity].
  apply String.eqb_eq in Eu. subst u. exfalso. apply Ha. reflexivity.
Qed.

(** X22 at a DELETE of the MCP endpoint. *)
Lemma X22_witness :
  handleHTTP (Demo.host None)
    {| method := "DELETE"; url := Some "/mcp"; authorization := None;
       body := "" |}
  = ([], Ret {| status := 404; headers := jsonHeaders; payload := NotFound |}).
Proof.
  apply (@X22_everything_else_is_not_found (Demo.host None)
           {| method := "DELETE"; url := Some "/mcp"; authorization := None;
              body := "" |});
    intro H; discriminate H.
Defined.

(** X23: the session methods are answered without touching a tool:
    [initialize] returns the protocol version 2024-11-05 and the server
    name and version, [ping] and [initialized] return the empty result,
    each with status 200 and no event, whatever [params] holds. *)
Theorem X23_session_methods : forall h req request m,
  postsRpc h req request ->
  prop h request "method" = Ret (JStr m) ->
  m = "initialize" \/ m = "ping" \/ m = "initialized" ->
  exists id,
    handleHTTP h req
    = ([], Ret {| status := 200; headers := jsonHeaders;
                  payload :=
                    RpcResponse
                      (if String.eqb m "initialize"
                       then InitializeResult "2024-11-05" "ai-testing-mcp" "1.0.0"
                       else EmptyResult)
                      id |}).
Proof.
  intros h req request m Hpost Hm Hcase.
  destruct (@prop_total h request "method" _ "id" Hm) as (id & Hid).
  exists (JS.or id JNull).
  rewrite (handleHTTP_post Hpost). unfold rpcResult.
  rewrite Hm, bind_lift_ret.
  destruct Hcase as [-> | [-> | ->]];
    cbn [JS.is_str String.eqb Ascii.eqb Bool.eqb];
    rewrite bind_ret_l, Hid; reflexivity.
Qed.

(** X23 at a ping. *)
Lemma X23_witness :
  exists id,
    handleHTTP (Demo.host None) (Demo.post (Demo.rpc "ping" JUndef (JNum 0)))
    = ([], Ret {| status := 200; headers := jsonHeaders;
                  payload :=
                    RpcResponse
                      (if String.eqb "ping" "initialize"
                       then InitializeResult "2024-11-05" "ai-testing-mcp" "1.0.0"
                       else EmptyResult)
                      id |}).
Proof.
  apply (@X23_session_methods (Demo.host None) _
           (Demo.rpc "ping" JUndef (JNum 0)) "ping").
  - repeat split; reflexivity.
  - reflexivity.
  - right. left. reflexivity.
Defined.
